(** * debtcollector.moves: a shallow embedding and its properties

    The module [debtcollector/moves.py] builds forwarding wrappers that warn
    about an entity that was moved (function, method, property, read-only
    property, class).  The embedding below models the Python objects the
    module touches (a heap of classes and instances, function values,
    closures), an event trace for the warning channel and the entered
    function bodies, and a state-and-exception monad for evaluation. *)

From Stdlib Require Import ZArith Lia Ascii String.
From stdpp Require Import base option list strings gmap.

(** ** Strings: the pieces of [str] the module uses *)

(** [sep.join(parts)]. *)
Fixpoint join (sep : string) (parts : list string) : string :=
  match parts with
  | [] => ""
  | [p] => p
  | p :: rest => p +:+ sep +:+ join sep rest
  end.

(** [tpl % args] for templates whose only conversion is [%s]; the arguments
    are consumed from left to right.  Every template of the module is applied
    to as many arguments as it has conversions. *)
Fixpoint fmt (tpl : string) (args : list string) : string :=
  match tpl with
  | "" => ""
  | String "%"%char (String "s"%char rest) =>
      match args with
      | a :: args' => a +:+ fmt rest args'
      | [] => String "%"%char (String "s"%char (fmt rest []))
      end
  | String c rest => String c (fmt rest args)
  end.

(** [s.endswith(suffix)]: some tail of [s] is [suffix]. *)
Fixpoint endswith (s suffix : string) : bool :=
  if String.eqb s suffix then true
  else match s with
       | "" => false
       | String _ s' => endswith s' suffix
       end.

(** Substring and suffix relations used to state properties of messages. *)
Definition ends_with (s suffix : string) : Prop :=
  exists pre, s = pre +:+ suffix.

Definition contains (s sub : string) : Prop :=
  exists pre post, s = pre +:+ sub +:+ post.

(** ** Module constants (moves.py, lines 24-27) *)

Definition _KIND_MOVED_PREFIX_TPL : string := "%s '%s' has moved to '%s'".
Definition _CLASS_MOVED_PREFIX_TPL : string := "Class '%s' has moved to '%s'".
Definition _MOVED_CALLABLE_POSTFIX : string := "()".
Definition _FUNC_MOVED_PREFIX_TPL : string := "Function '%s' has moved to '%s'".

(** The name of the module itself, [__name__] in moves.py. *)
Definition __name__ : string := "debtcollector.moves".

(** ** [_utils.generate_message] *)

(** Modelled from the spec: [_utils.generate_message] is not among the
    sources.  The spec (Message Formatter, and the message grammar of the
    external interfaces) gives: the prefix alone when no optional field is
    given; otherwise the custom message and then the version information, each
    introduced by ". "; the version information reads "in version V", followed,
    when a removal version is present, by " and will be removed in R", where
    the removal version "?" is rendered as "a future version". *)
Definition generate_message (prefix : string) (message version removal_version : option string)
  : string :=
  let message_part :=
    match message with
    | Some m => ". " +:+ m
    | None => ""
    end in
  let version_part :=
    match version with
    | Some v =>
        ". in version " +:+ v +:+
        match removal_version with
        | Some r =>
            " and will be removed in " +:+
            (if String.eqb r "?" then "a future version" else r)
        | None => ""
        end
    | None => ""
    end in
  prefix +:+ message_part +:+ version_part.

(** ** Python values and objects *)

Abbreviation loc := nat.
Definition fn_id := string.

(** An instance of [moved_read_only_property]: the fields [__init__] stores
    (moves.py, lines 117-124). *)
Record moved_read_only_property_obj := {
  _old_name : string;
  _new_name : string;
  _message : string;
  _stacklevel : Z;
  _category : option string
}.

(** The variables captured by [_moved_decorator.decorator.wrapper]: the
    arguments of [_moved_decorator] and the two names resolved by [decorator]
    (moves.py, lines 30-38). *)
Record moved_env := {
  env_kind : string;
  env_new_attribute_name : string;
  env_message : option string;
  env_version : option string;
  env_removal_version : option string;
  env_stacklevel : Z;
  env_category : option string;
  env_fully_qualified : bool;
  env_old_attribute_name : string
}.

(** Values.  Classes and instances are mutable and live on the heap, behind a
    [VRef]; functions and the closures the module builds are values. *)
Inductive value :=
| VNone
| VInt (z : Z)
| VStr (s : string)
| VRef (l : loc)
| VFunc (f : fn_id)
    (** a function whose body is given by the runtime *)
| VBound (func self : value)
    (** a bound method *)
| VProperty (fget fset : value)
    (** the built-in [property]; an absent accessor is [VNone] *)
| VMovedFunc (name module_ out_message : string) (stacklevel : Z)
    (category : option string) (new_func : value)
    (** [old_new_func], the closure [moved_function] returns *)
| VMovedAttr (env : moved_env) (f : value)
    (** [wrapper(f)], what the decorator of [_moved_decorator] returns *)
| VMovedInit (out_message : string) (stacklevel : Z) (category : option string)
    (f : value)
    (** [wrapper], what the inner decorator of [moved_class] returns *)
| VMovedROProp (p : moved_read_only_property_obj).

Definition kwargs_t := list (string * value).

Record class_obj := {
  cls_name : string;
  cls_bases : list loc;
  cls_mro : list loc;
  cls_dict : gmap string value
}.

Inductive object :=
| OClass (c : class_obj)
| OInst (cls : loc) (dict : gmap string value).

Abbreviation heap := (list object).

(** What the outside observes: a warning handed to the warning channel, and a
    function body entered with its arguments. *)
Record warning := {
  w_message : string;
  w_category : string;
  w_stacklevel : Z
}.

Inductive event :=
| EvWarn (w : warning)
| EvCall (f : fn_id) (args : list value) (kwargs : kwargs_t).

Record world := {
  w_heap : heap;
  w_trace : list event
}.

Definition emit (e : event) (s : world) : world :=
  {| w_heap := w_heap s; w_trace := w_trace s ++ [e] |}.

Definition set_heap (h : heap) (s : world) : world :=
  {| w_heap := h; w_trace := w_trace s |}.

(** ** Evaluation: state and exceptions *)

Record exn := {
  exn_type : string;
  exn_msg : string
}.

Definition TypeError (msg : string) : exn := {| exn_type := "TypeError"; exn_msg := msg |}.
Definition AttributeError (msg : string) : exn :=
  {| exn_type := "AttributeError"; exn_msg := msg |}.
Definition RecursionError : exn :=
  {| exn_type := "RecursionError"; exn_msg := "maximum recursion depth exceeded" |}.

Inductive outcome (A : Type) :=
| Ok (a : A)
| Raise (e : exn).
Arguments Ok {A} a.
Arguments Raise {A} e.

Definition M (A : Type) : Type := world -> outcome A * world.

Definition ret {A} (a : A) : M A := fun s => (Ok a, s).

Definition raise {A} (e : exn) : M A := fun s => (Raise e, s).

Definition bind {A B} (m : M A) (k : A -> M B) : M B :=
  fun s =>
    match m s with
    | (Ok a, s') => k a s'
    | (Raise e, s') => (Raise e, s')
    end.

Notation "x <- m ;; k" := (bind m (fun x => k))
  (at level 100, m at next level, right associativity).

(** ** The runtime the module runs in *)

(** The bodies of the functions of the program, the reflection helpers of
    [debtcollector._utils] that resolve names (not among the sources; they
    read the objects, so they take the heap), and the types and attributes of
    built-in values. *)
Class Runtime := {
  fn_body : fn_id -> list value -> kwargs_t -> M value;
  get_qualified_name : heap -> value -> bool * string;
  get_class_name : heap -> value -> option bool -> string;
  get_callable_name : heap -> value -> string;
  builtin_type : value -> value;
  builtin_getattr : value -> string -> M value;
  builtin_setattr : value -> string -> value -> M value
}.

(** ** [_utils.deprecation] *)

Definition DeprecationWarning : string := "DeprecationWarning".

(** Modelled from the spec: [_utils.deprecation] is not among the sources.
    The spec (Warning Emitter) gives: it issues one warning through the
    warning channel, with [category] if given and the default deprecation
    category otherwise, and with [stacklevel]; it never raises and returns no
    value. *)
Definition deprecation (message : string) (stacklevel : Z) (category : option string)
  : M value :=
  fun s =>
    (Ok VNone,
     emit (EvWarn {| w_message := message;
                     w_category := default DeprecationWarning category;
                     w_stacklevel := stacklevel |}) s).

(** ** Host operations: classes, attributes, calls *)

(** [inspect.isclass]. *)
Definition isclass (h : heap) (v : value) : bool :=
  match v with
  | VRef l => match h !! l with
              | Some (OClass _) => true
              | _ => false
              end
  | _ => false
  end.

(** [type(v)]: the class of an instance; the runtime's type for any other
    value. *)
Definition py_type `{Runtime} (h : heap) (v : value) : value :=
  match v with
  | VRef l => match h !! l with
              | Some (OInst c _) => VRef c
              | _ => builtin_type v
              end
  | _ => builtin_type v
  end.

(** The first class of a method resolution order whose dictionary has [name]. *)
Fixpoint mro_lookup (h : heap) (mro : list loc) (name : string) : option value :=
  match mro with
  | [] => None
  | k :: rest =>
      match h !! k with
      | Some (OClass c) =>
          match cls_dict c !! name with
          | Some v => Some v
          | None => mro_lookup h rest name
          end
      | _ => mro_lookup h rest name
      end
  end.

Definition class_lookup (h : heap) (c : loc) (name : string) : option value :=
  match h !! c with
  | Some (OClass co) => mro_lookup h (cls_mro co) name
  | _ => None
  end.

(** The dictionary [type()] gives a new class: the namespace it is handed,
    with [__module__] set to the name of the calling module and [__doc__] to
    [None] where the namespace has no such entry.  (The instances of every
    class of the model have a dictionary, so no [__dict__] or [__weakref__]
    descriptor is added.) *)
Definition type_namespace (caller_module : string) (dict : gmap string value)
  : gmap string value :=
  let dict :=
    match dict !! "__module__" with
    | Some _ => dict
    | None => <["__module__" := VStr caller_module]> dict
    end in
  match dict !! "__doc__" with
  | Some _ => dict
  | None => <["__doc__" := VNone]> dict
  end.

(** [type(name, (base,), dict)], called from the module [caller_module]: a new
    class object, whose resolution order is the one of its single base behind
    itself. *)
Definition type_new (caller_module : string) (name : string) (base : value)
    (dict : gmap string value) : M value :=
  fun s =>
    match base with
    | VRef b =>
        match w_heap s !! b with
        | Some (OClass bo) =>
            let l := length (w_heap s) in
            (Ok (VRef l),
             set_heap (w_heap s ++
                       [OClass {| cls_name := name; cls_bases := [b];
                                  cls_mro := l :: cls_mro bo;
                                  cls_dict := type_namespace caller_module dict |}]) s)
        | _ => raise (TypeError "bases must be types") s
        end
    | _ => raise (TypeError "bases must be types") s
    end.

(** The descriptors that define [__set__].  Of the types of the model only
    [property] does; [moved_read_only_property] defines [__init__] and
    [__get__] and nothing else (moves.py, lines 114-136). *)
Definition is_data_descriptor (a : value) : bool :=
  match a with
  | VProperty _ _ => true
  | _ => false
  end.

Definition class_name_of (h : heap) (c : loc) : string :=
  match h !! c with
  | Some (OClass co) => cls_name co
  | _ => "?"
  end.

(** ** moves.py: the bodies of the closures *)

(** In the three closure bodies [call] is the host's call operation, with the
    recursion depth that is left at that point. *)

(** [_moved_decorator.decorator.wrapper] (moves.py, lines 40-54); [env] holds
    the captured variables. *)
Definition _moved_decorator_wrapper `{Runtime}
    (call : value -> list value -> kwargs_t -> M value) (env : moved_env)
    (wrapped : value) (instance : option value) (args : list value) (kwargs : kwargs_t)
  : M value :=
  fun s =>
    let base_name := get_class_name (w_heap s) wrapped (Some false) in
    let old_name :=
      if env_fully_qualified env then env_old_attribute_name env
      else join "." [base_name; env_old_attribute_name env] in
    let new_name := join "." [base_name; env_new_attribute_name env] in
    let prefix := fmt _KIND_MOVED_PREFIX_TPL [env_kind env; old_name; new_name] in
    let out_message :=
      generate_message prefix (env_message env) (env_version env)
        (env_removal_version env) in
    (_ <- deprecation out_message (env_stacklevel env) (env_category env) ;;
     call wrapped args kwargs) s.

(** [moved_function.old_new_func] (moves.py, lines 80-83). *)
Definition old_new_func
    (call : value -> list value -> kwargs_t -> M value)
    (out_message : string) (stacklevel : Z) (category : option string) (new_func : value)
    (args : list value) (kwargs : kwargs_t) : M value :=
  _ <- deprecation out_message stacklevel category ;;
  call new_func args kwargs.

(** [moved_class.decorator.wrapper] (moves.py, lines 187-190). *)
Definition moved_class_wrapper
    (call : value -> list value -> kwargs_t -> M value)
    (out_message : string) (stacklevel : Z) (category : option string) (f : value)
    (self : value) (args : list value) (kwargs : kwargs_t) : M value :=
  _ <- deprecation out_message stacklevel category ;;
  call f (self :: args) kwargs.

(** ** Host operations: calls *)

(** Keyword arguments: the value passed under a name, and the arguments
    without that name. *)
Fixpoint kwargs_get (name : string) (kwargs : kwargs_t) : option value :=
  match kwargs with
  | [] => None
  | (k, v) :: rest => if String.eqb k name then Some v else kwargs_get name rest
  end.

Definition kwargs_remove (name : string) (kwargs : kwargs_t) : kwargs_t :=
  List.filter (fun kv => negb (String.eqb (fst kv) name)) kwargs.

(** The binding of the arguments of a call to the parameters
    [(self, *args, **kwargs)] of [moved_class.decorator.wrapper] (moves.py,
    line 187): [self] is the first positional argument, or, when there is
    none, the keyword argument of that name; a call that gives both, or
    neither, is a type error, raised before the body runs. *)
Definition bind_self (args : list value) (kwargs : kwargs_t)
  : exn + (value * list value * kwargs_t) :=
  match args with
  | self :: rest =>
      match kwargs_get "self" kwargs with
      | Some _ => inl (TypeError "wrapper() got multiple values for argument 'self'")
      | None => inr (self, rest, kwargs)
      end
  | [] =>
      match kwargs_get "self" kwargs with
      | Some self => inr (self, [], kwargs_remove "self" kwargs)
      | None => inl (TypeError "wrapper() missing 1 required positional argument: 'self'")
      end
  end.

(** The end of an instantiation: [__init__] has to return [None]; the value of
    the call is the new instance. *)
Definition finish_init (i : loc) (r : value) : M value :=
  match r with
  | VNone => ret (VRef i)
  | _ => raise (TypeError "__init__() should return None")
  end.

(** The call of [f] with positional and keyword arguments.  [fuel] is the recursion depth that is left; at
    depth 0 the interpreter raises [RecursionError].  A function of the
    program logs its entry and runs its body.  A bound method passes its
    receiver first; for a function decorated through [wrapt] the receiver is
    bound to the wrapped function and handed to the wrapper as [instance]; a
    call of such a function with no receiver bound, also the call through the
    class with the receiver as first argument, hands the wrapper the function
    and the arguments as they are.  Calling a class allocates an instance and
    runs the [__init__] its resolution order finds. *)
Fixpoint py_call `{Runtime} (fuel : nat) (f : value) (args : list value)
    (kwargs : kwargs_t) {struct fuel} : M value :=
  match fuel with
  | 0 => raise RecursionError
  | S n =>
      match f with
      | VFunc id => fun s => fn_body id args kwargs (emit (EvCall id args kwargs) s)
      | VBound g self =>
          match g with
          | VMovedAttr env w =>
              _moved_decorator_wrapper (py_call n) env (VBound w self) (Some self)
                args kwargs
          | _ => py_call n g (self :: args) kwargs
          end
      | VMovedFunc _ _ out_message stacklevel category new_func =>
          old_new_func (py_call n) out_message stacklevel category new_func args kwargs
      | VMovedAttr env w =>
          _moved_decorator_wrapper (py_call n) env w None args kwargs
      | VMovedInit out_message stacklevel category g =>
          match bind_self args kwargs with
          | inr (self, rest, kwargs') =>
              moved_class_wrapper (py_call n) out_message stacklevel category g
                self rest kwargs'
          | inl e => raise e
          end
      | VRef c =>
          fun s =>
            match w_heap s !! c with
            | Some (OClass _) =>
                let i := length (w_heap s) in
                let s1 := set_heap (w_heap s ++ [OInst c ∅]) s in
                match class_lookup (w_heap s1) c "__init__" with
                | Some init =>
                    (r <- py_call n init (VRef i :: args) kwargs ;;
                     finish_init i r) s1
                | None => (Ok (VRef i), s1)
                end
            | _ => raise (TypeError "object is not callable") s
            end
      | _ => raise (TypeError "object is not callable")
      end
  end.

(** ** moves.py: [moved_read_only_property] *)

Module moved_read_only_property.

(** [__init__] (moves.py, lines 114-124): the object it initialises. *)
Definition __init__ (old_name new_name : string) (version removal_version : option string)
    (stacklevel : Z) (category : option string) : moved_read_only_property_obj :=
  {| _old_name := old_name;
     _new_name := new_name;
     _message :=
       generate_message
         (fmt "Read-only property '%s' has moved to '%s'" [old_name; new_name])
         None version removal_version;
     _stacklevel := stacklevel;
     _category := category |}.

(** [__get__] (moves.py, lines 126-136); [getattr] is the host's attribute
    lookup, with the recursion depth that is left. *)
Definition __get__ (getattr : value -> string -> M value)
    (self : moved_read_only_property_obj) (instance : option value) (owner : value)
  : M value :=
  _ <- deprecation (_message self) (_stacklevel self) (_category self) ;;
  let real_owner :=
    match instance with
    | Some i => i
    | None => owner
    end in
  getattr real_owner (_new_name self).

End moved_read_only_property.

(** ** Host operations: attributes *)

(** What an attribute found on a class yields when read through [instance]
    (or through the class itself, [instance = None]): the descriptor protocol. *)
Definition descr_get
    (getattr : value -> string -> M value)
    (call : value -> list value -> kwargs_t -> M value)
    (a : value) (instance : option value) (owner : value) : M value :=
  match a with
  | VMovedROProp p => moved_read_only_property.__get__ getattr p instance owner
  | VProperty fget _ =>
      match instance with
      | None => ret a
      | Some i =>
          match fget with
          | VNone => raise (AttributeError "unreadable attribute")
          | _ => call fget [i] []
          end
      end
  | VFunc _ | VMovedFunc _ _ _ _ _ _ | VMovedAttr _ _ | VMovedInit _ _ _ _ =>
      match instance with
      | None => ret a
      | Some i => ret (VBound a i)
      end
  | _ => ret a
  end.

(** [getattr(v, name)] for instances and classes with the default attribute
    access: a data descriptor of the class first, then the dictionary of the
    instance, then any other attribute of the class. *)
Fixpoint py_getattr `{Runtime} (fuel : nat) (v : value) (name : string) {struct fuel}
  : M value :=
  match fuel with
  | 0 => raise RecursionError
  | S n =>
      fun s =>
        match v with
        | VRef l =>
            match w_heap s !! l with
            | Some (OInst c d) =>
                match class_lookup (w_heap s) c name with
                | Some a =>
                    if is_data_descriptor a
                    then descr_get (py_getattr n) (py_call n) a (Some v) (VRef c) s
                    else match d !! name with
                         | Some x => (Ok x, s)
                         | None =>
                             descr_get (py_getattr n) (py_call n) a (Some v) (VRef c) s
                         end
                | None =>
                    match d !! name with
                    | Some x => (Ok x, s)
                    | None =>
                        raise (AttributeError
                                 (fmt "'%s' object has no attribute '%s'"
                                    [class_name_of (w_heap s) c; name])) s
                    end
                end
            | Some (OClass co) =>
                match mro_lookup (w_heap s) (cls_mro co) name with
                | Some a => descr_get (py_getattr n) (py_call n) a None v s
                | None =>
                    raise (AttributeError
                             (fmt "type object '%s' has no attribute '%s'"
                                [cls_name co; name])) s
                end
            | None => builtin_getattr v name s
            end
        | _ => builtin_getattr v name s
        end
  end.

(** [descriptor.__set__(instance, x)] for the data descriptors of the model. *)
Definition descr_set
    (call : value -> list value -> kwargs_t -> M value)
    (a : value) (instance : value) (x : value) : M value :=
  match a with
  | VProperty _ fset =>
      match fset with
      | VNone => raise (AttributeError "can't set attribute")
      | _ => call fset [instance; x] []
      end
  | _ => raise (AttributeError "__set__")
  end.

(** [setattr(v, name, x)], that is [v.name = x], with the default attribute
    assignment: a data descriptor of the class takes the assignment,
    otherwise the value goes into the dictionary of the object. *)
Definition py_setattr `{Runtime} (fuel : nat) (v : value) (name : string) (x : value)
  : M value :=
  fun s =>
    match v with
    | VRef l =>
        match w_heap s !! l with
        | Some (OInst c d) =>
            let store :=
              (Ok VNone, set_heap (<[l := OInst c (<[name := x]> d)]> (w_heap s)) s) in
            match class_lookup (w_heap s) c name with
            | Some a =>
                if is_data_descriptor a then descr_set (py_call fuel) a v x s else store
            | None => store
            end
        | Some (OClass co) =>
            (Ok VNone,
             set_heap (<[l := OClass {| cls_name := cls_name co;
                                        cls_bases := cls_bases co;
                                        cls_mro := cls_mro co;
                                        cls_dict := <[name := x]> (cls_dict co) |}]>
                         (w_heap s)) s)
        | None => builtin_setattr v name x s
        end
    | _ => builtin_setattr v name x s
    end.

(** ** moves.py: the wrapper constructors *)

(** [_moved_decorator(...)(f)] (moves.py, lines 30-58): the decorator applied
    to [f].  The decorator resolves the name of [f] once; the result is
    [wrapper(f)].  [if attr_postfix:] holds for a non-empty string. *)
Definition _moved_decorator `{Runtime} (kind new_attribute_name : string)
    (message version removal_version : option string) (stacklevel : Z)
    (attr_postfix : option string) (category : option string)
    (h : heap) (f : value) : value :=
  let '(fully_qualified, old_attribute_name) := get_qualified_name h f in
  let old_attribute_name :=
    match attr_postfix with
    | Some postfix =>
        if String.eqb postfix "" then old_attribute_name
        else old_attribute_name +:+ postfix
    | None => old_attribute_name
    end in
  VMovedAttr
    {| env_kind := kind;
       env_new_attribute_name := new_attribute_name;
       env_message := message;
       env_version := version;
       env_removal_version := removal_version;
       env_stacklevel := stacklevel;
       env_category := category;
       env_fully_qualified := fully_qualified;
       env_old_attribute_name := old_attribute_name |}
    f.

(** [moved_function] (moves.py, lines 61-87).  The closure carries the name
    and module assigned at lines 85-86. *)
Definition moved_function `{Runtime} (h : heap) (new_func : value)
    (old_func_name old_module_name : string)
    (message version removal_version : option string) (stacklevel : Z)
    (category : option string) : value :=
  let new_func_full_name := get_callable_name h new_func in
  let new_func_full_name := new_func_full_name +:+ _MOVED_CALLABLE_POSTFIX in
  let old_func_full_name := join "." [old_module_name; old_func_name] in
  let old_func_full_name := old_func_full_name +:+ _MOVED_CALLABLE_POSTFIX in
  let prefix := fmt _FUNC_MOVED_PREFIX_TPL [old_func_full_name; new_func_full_name] in
  let out_message := generate_message prefix message version removal_version in
  VMovedFunc old_func_name old_module_name out_message stacklevel category new_func.

(** [moved_method] (moves.py, lines 139-149). *)
Definition moved_method `{Runtime} (new_method_name : string)
    (message version removal_version : option string) (stacklevel : Z)
    (category : option string) : heap -> value -> value :=
  let new_method_name :=
    if negb (endswith new_method_name _MOVED_CALLABLE_POSTFIX)
    then new_method_name +:+ _MOVED_CALLABLE_POSTFIX
    else new_method_name in
  _moved_decorator "Method" new_method_name message version removal_version
    stacklevel (Some _MOVED_CALLABLE_POSTFIX) category.

(** [moved_property] (moves.py, lines 152-158). *)
Definition moved_property `{Runtime} (new_attribute_name : string)
    (message version removal_version : option string) (stacklevel : Z)
    (category : option string) : heap -> value -> value :=
  _moved_decorator "Property" new_attribute_name message version removal_version
    stacklevel None category.

(** [moved_class] (moves.py, lines 161-197).  [fuel] is the recursion depth
    left for the attribute accesses of lines 195-196. *)
Definition moved_class `{Runtime} (fuel : nat) (new_class : value)
    (old_class_name old_module_name : string)
    (message version removal_version : option string) (stacklevel : Z)
    (category : option string) : M value :=
  fun s =>
    if negb (isclass (w_heap s) new_class) then
      let '(_qual, type_name) :=
        get_qualified_name (w_heap s) (py_type (w_heap s) new_class) in
      raise (TypeError
               (fmt "Unexpected class type '%s' (expected class type only)" [type_name])) s
    else
      let old_name := join "." [old_module_name; old_class_name] in
      let new_name := get_class_name (w_heap s) new_class None in
      let prefix := fmt _CLASS_MOVED_PREFIX_TPL [old_name; new_name] in
      let out_message := generate_message prefix message version removal_version in
      let decorator f := VMovedInit out_message stacklevel category f in
      (old_class <- type_new __name__ old_class_name new_class ∅ ;;
       _ <- py_setattr fuel old_class "__module__" (VStr old_module_name) ;;
       init <- py_getattr fuel old_class "__init__" ;;
       _ <- py_setattr fuel old_class "__init__" (decorator init) ;;
       ret old_class) s.

(** ** Observations on the trace *)

(** The exception a run ended with, if any. *)
Definition raised {A} (r : outcome A * world) : option exn :=
  match fst r with
  | Raise e => Some e
  | Ok _ => None
  end.

(** The warnings of a trace, in the order they were emitted. *)
Fixpoint warnings_of (t : list event) : list warning :=
  match t with
  | [] => []
  | EvWarn w :: rest => w :: warnings_of rest
  | EvCall _ _ _ :: rest => warnings_of rest
  end.

(** The warning a wrapper emits for a message. *)
Definition warn (out_message : string) (stacklevel : Z) (category : option string) : event :=
  EvWarn {| w_message := out_message;
            w_category := default DeprecationWarning category;
            w_stacklevel := stacklevel |}.

(** The message [_moved_decorator.decorator.wrapper] builds when it is invoked
    with [wrapped] on the heap [h]. *)
Definition wrapper_message `{Runtime} (env : moved_env) (h : heap) (wrapped : value) : string :=
  let base_name := get_class_name h wrapped (Some false) in
  generate_message
    (fmt _KIND_MOVED_PREFIX_TPL
       [env_kind env;
        if env_fully_qualified env then env_old_attribute_name env
        else join "." [base_name; env_old_attribute_name env];
        join "." [base_name; env_new_attribute_name env]])
    (env_message env) (env_version env) (env_removal_version env).

(** The messages [moved_function] and [moved_class] build, once, when they
    are called on the heap [h]. *)
Definition moved_function_message `{Runtime} (h : heap) (new_func : value)
    (old_func_name old_module_name : string)
    (message version removal_version : option string) : string :=
  generate_message
    (fmt _FUNC_MOVED_PREFIX_TPL
       [join "." [old_module_name; old_func_name] +:+ _MOVED_CALLABLE_POSTFIX;
        get_callable_name h new_func +:+ _MOVED_CALLABLE_POSTFIX])
    message version removal_version.

Definition moved_class_message `{Runtime} (h : heap) (new_class : value)
    (old_class_name old_module_name : string)
    (message version removal_version : option string) : string :=
  generate_message
    (fmt _CLASS_MOVED_PREFIX_TPL
       [join "." [old_module_name; old_class_name]; get_class_name h new_class None])
    message version removal_version.

(** The class object [moved_class] leaves on the heap for the old name: a
    subclass of [b] whose dictionary holds, over the entries [type()] made,
    the old module name and the wrapped constructor. *)
Definition old_class_obj (l b : loc) (bo : class_obj) (old_class_name old_module_name : string)
    (init : value) : object :=
  OClass {| cls_name := old_class_name;
            cls_bases := [b];
            cls_mro := l :: cls_mro bo;
            cls_dict :=
              <["__init__" := init]>
                (<["__module__" := VStr old_module_name]> (type_namespace __name__ ∅)) |}.

(** Every resolution order of the heap names objects of the heap. *)
Definition mro_ok (h : heap) (mro : list loc) : bool :=
  forallb (fun k => k <? length h) mro.

Definition heap_wf (h : heap) : bool :=
  forallb (fun o => match o with
                    | OClass c => mro_ok h (cls_mro c)
                    | OInst _ _ => true
                    end) h.

(** ** A small program, used in the examples *)

(** Function bodies: [succ] adds one to its integer argument, [one] returns
    1, [boom] raises; every other function returns [None]. *)
Definition demo_fn_body (id : fn_id) (args : list value) (kwargs : kwargs_t) : M value :=
  if String.eqb id "succ" then
    match args with
    | VInt z :: _ => ret (VInt (z + 1))
    | _ => raise (TypeError "succ() needs an int")
    end
  else if String.eqb id "one" then ret (VInt 1)
  else if String.eqb id "boom" then raise {| exn_type := "ValueError"; exn_msg := "boom" |}
  else ret VNone.

(** Name resolution by the bare names of the objects; a method is resolved
    through its receiver. *)
Definition demo_class_of (h : heap) (v : value) : string :=
  match v with
  | VRef l =>
      match h !! l with
      | Some (OInst c _) => class_name_of h c
      | Some (OClass co) => cls_name co
      | None => "<unknown>"
      end
  | _ => "<unknown>"
  end.

Definition demo_get_class_name (h : heap) (v : value) (fully_qualified : option bool) : string :=
  match v with
  | VBound _ self => demo_class_of h self
  | _ => demo_class_of h v
  end.

Definition demo_get_qualified_name (h : heap) (v : value) : bool * string :=
  match v with
  | VFunc id => (false, id)
  | VStr n => (true, n)
  | _ => (true, demo_class_of h v)
  end.

Definition demo_get_callable_name (h : heap) (v : value) : string :=
  match v with
  | VFunc id => "newmod." +:+ id
  | _ => "<unknown>"
  end.

(** A built-in type is stood for by its name. *)
Definition demo_builtin_type (v : value) : value :=
  VStr match v with
       | VNone => "NoneType"
       | VInt _ => "int"
       | VStr _ => "str"
       | VRef _ => "type"
       | VProperty _ _ => "property"
       | VBound _ _ => "method"
       | VMovedROProp _ => "moved_read_only_property"
       | _ => "function"
       end.

Definition demo_runtime : Runtime :=
  {| fn_body := demo_fn_body;
     get_qualified_name := demo_get_qualified_name;
     get_class_name := demo_get_class_name;
     get_callable_name := demo_get_callable_name;
     builtin_type := demo_builtin_type;
     builtin_getattr := fun _ _ => raise (AttributeError "no such attribute");
     builtin_setattr := fun _ _ _ => raise (AttributeError "no such attribute") |}.

(** The heap of the program:
<<
    class A(object):
        def __init__(this, *args, **options): ...
        new = 5
        old = moved_read_only_property('old', 'new', version='1.0', removal_version='?')
        gone = moved_read_only_property('gone', 'missing')
        ro = property(one)
        @moved_method('new_method')
        def old_method(self): ...
    class B(A): pass
    a = A(); b = B()
>>
    at the locations 0 ([object]), 1 ([A]), 2 ([B]), 3 ([a]) and 4 ([b]). *)
Definition demo_object : object :=
  OClass {| cls_name := "object"; cls_bases := []; cls_mro := [0];
            cls_dict := {[ "__init__" := VFunc "object.__init__" ]} |}.

Definition demo_old : moved_read_only_property_obj :=
  moved_read_only_property.__init__ "old" "new" (Some "1.0") (Some "?") 3 None.

Definition demo_gone : moved_read_only_property_obj :=
  moved_read_only_property.__init__ "gone" "missing" None None 3 None.

Definition demo_old_method : value :=
  @moved_method demo_runtime "new_method" None None None 3 None [] (VFunc "old_method").

Definition demo_A_obj : class_obj :=
  {| cls_name := "A"; cls_bases := [0]; cls_mro := [1; 0];
     cls_dict :=
       <["__init__" := VFunc "A.__init__"]>
       (<["new" := VInt 5]>
       (<["old" := VMovedROProp demo_old]>
       (<["gone" := VMovedROProp demo_gone]>
       (<["ro" := VProperty (VFunc "one") VNone]>
       (<["old_method" := demo_old_method]> ∅))))) |}.

Definition demo_B_obj : class_obj :=
  {| cls_name := "B"; cls_bases := [1]; cls_mro := [2; 1; 0]; cls_dict := ∅ |}.

Definition demo_heap : heap :=
  [demo_object; OClass demo_A_obj; OClass demo_B_obj; OInst 1 ∅; OInst 2 ∅].

Definition demo_world : world := {| w_heap := demo_heap; w_trace := [] |}.

(** ** Wrappers of wrappers *)

(** Several events, in order. *)
Definition emit_all (es : list event) (s : world) : world :=
  {| w_heap := w_heap s; w_trace := w_trace s ++ es |}.

(** [moved_function] applied again and again, from the inside out: each pair
    of [olds] is an old function name with its module; the head of the list
    names the outermost wrapper. *)
Fixpoint moved_function_chain `{Runtime} (h : heap) (olds : list (string * string))
    (stacklevel : Z) (category : option string) (new_func : value) : value :=
  match olds with
  | [] => new_func
  | (old_func_name, old_module_name) :: rest =>
      moved_function h (moved_function_chain h rest stacklevel category new_func)
        old_func_name old_module_name None None None stacklevel category
  end.

(** The warnings of those wrappers, outermost first. *)
Fixpoint chain_warnings `{Runtime} (h : heap) (olds : list (string * string))
    (stacklevel : Z) (category : option string) (new_func : value) : list event :=
  match olds with
  | [] => []
  | (old_func_name, old_module_name) :: rest =>
      warn (moved_function_message h
              (moved_function_chain h rest stacklevel category new_func)
              old_func_name old_module_name None None None) stacklevel category
      :: chain_warnings h rest stacklevel category new_func
  end.

(** [k] calls of [f], one after the other, with the same arguments; the first
    exception ends the sequence. *)
Fixpoint py_call_times `{Runtime} (fuel k : nat) (f : value) (args : list value)
    (kwargs : kwargs_t) : M value :=
  match k with
  | 0 => ret VNone
  | S k' =>
      _ <- py_call fuel f args kwargs ;;
      py_call_times fuel k' f args kwargs
  end.

(** ** A second program, used in the examples *)

(** The first program with
<<
    class C(object):
        loop = moved_read_only_property('loop', 'loop')
        @property
        @moved_property('new_prop')
        def old_prop(self): return 1
        alias = moved_function(succ, 'alias', 'oldmod')
    c = C()
>>
    at the locations 5 ([C]) and 6 ([c]). *)
Definition demo_loop : moved_read_only_property_obj :=
  moved_read_only_property.__init__ "loop" "loop" None None 3 None.

Definition demo_old_prop : value :=
  @moved_property demo_runtime "new_prop" None None None 3 None [] (VFunc "one").

Definition demo_alias : value :=
  @moved_function demo_runtime [] (VFunc "succ") "alias" "oldmod" None None None 3 None.

Definition demo_C_obj : class_obj :=
  {| cls_name := "C"; cls_bases := [0]; cls_mro := [5; 0];
     cls_dict :=
       <["loop" := VMovedROProp demo_loop]>
       (<["old_prop" := VProperty demo_old_prop VNone]>
       (<["alias" := demo_alias]> ∅)) |}.

Definition demo_heap2 : heap := demo_heap ++ [OClass demo_C_obj; OInst 5 ∅].

Definition demo_world2 : world := {| w_heap := demo_heap2; w_trace := [] |}.

(** * Properties *)

(** ** String lemmas *)

#[local] Arguments String.append !_ _ / : simpl nomatch.

Lemma append_nil_r (s : string) : s +:+ "" = s.
Proof. induction s as [|c s IH]; simpl; [reflexivity | f_equal; exact IH]. Qed.

Lemma append_assoc (a b c : string) : (a +:+ b) +:+ c = a +:+ (b +:+ c).
Proof. induction a as [|x a IH]; simpl; [reflexivity | f_equal; exact IH]. Qed.

Lemma append_cons (c : ascii) (a b : string) : String c a +:+ b = String c (a +:+ b).
Proof. reflexivity. Qed.

Lemma endswith_unfold (s suffix : string) :
  endswith s suffix =
  if String.eqb s suffix then true
  else match s with
       | "" => false
       | String _ s' => endswith s' suffix
       end.
Proof. destruct s; reflexivity. Qed.

Lemma endswith_refl (s : string) : endswith s s = true.
Proof. rewrite endswith_unfold. now rewrite String.eqb_refl. Qed.

Lemma endswith_append (pre suffix : string) : endswith (pre +:+ suffix) suffix = true.
Proof.
  induction pre as [|c pre IH].
  - apply endswith_refl.
  - rewrite append_cons, endswith_unfold, IH. now destruct (String.eqb _ _).
Qed.

Lemma endswith_sound (s suffix : string) : endswith s suffix = true -> ends_with s suffix.
Proof.
  induction s as [|c s IH]; rewrite endswith_unfold.
  - destruct (String.eqb "" suffix) eqn:E; [|discriminate].
    intros _. apply String.eqb_eq in E. subst. now exists "".
  - destruct (String.eqb (String c s) suffix) eqn:E.
    + intros _. apply String.eqb_eq in E. subst. now exists "".
    + intros H. destruct (IH H) as [pre ->]. now exists (String c pre).
Qed.

Lemma endswith_complete (s suffix : string) : ends_with s suffix -> endswith s suffix = true.
Proof. intros [pre ->]. apply endswith_append. Qed.

Lemma ends_with_append (a b suffix : string) : ends_with b suffix -> ends_with (a +:+ b) suffix.
Proof. intros [pre ->]. exists (a +:+ pre). now rewrite append_assoc. Qed.

(** ** Messages *)

Lemma fmt_func (a b : string) :
  fmt _FUNC_MOVED_PREFIX_TPL [a; b] = "Function '" +:+ a +:+ "' has moved to '" +:+ b +:+ "'".
Proof. reflexivity. Qed.

Lemma fmt_kind (k a b : string) :
  fmt _KIND_MOVED_PREFIX_TPL [k; a; b] = k +:+ " '" +:+ a +:+ "' has moved to '" +:+ b +:+ "'".
Proof. reflexivity. Qed.

Lemma join_two (sep a b : string) : join sep [a; b] = a +:+ sep +:+ b.
Proof. reflexivity. Qed.

Lemma generate_message_prefix (prefix : string) (message version removal_version : option string) :
  exists rest, generate_message prefix message version removal_version = prefix +:+ rest.
Proof. unfold generate_message. eexists. reflexivity. Qed.

(** C3: [generate_message] gives the prefix alone when no optional field is
    given; with version "1.0" and removal version "2.0" the message ends with
    "in version 1.0 and will be removed in 2.0"; with the removal version "?" it
    ends with "in version 1.0 and will be removed in a future version"; without
    a version no version clause is appended.  Two further parts give the
    message in full when a version is given, and the last two read the format
    off the message [moved_read_only_property.__init__] stores. *)
Theorem C3_generate_message_format :
  (forall prefix, generate_message prefix None None None = prefix)
  /\ (forall prefix message,
        ends_with (generate_message prefix message (Some "1.0") (Some "2.0"))
          "in version 1.0 and will be removed in 2.0")
  /\ (forall prefix message,
        ends_with (generate_message prefix message (Some "1.0") (Some "?"))
          "in version 1.0 and will be removed in a future version")
  /\ (forall prefix message removal_version,
        generate_message prefix message None removal_version
        = prefix +:+ match message with
                     | Some m => ". " +:+ m
                     | None => ""
                     end)
  /\ (forall prefix message v r,
        generate_message prefix message (Some v) (Some r)
        = (prefix +:+ match message with
                      | Some m => ". " +:+ m
                      | None => ""
                      end)
          +:+ ". in version " +:+ v +:+ " and will be removed in "
          +:+ (if String.eqb r "?" then "a future version" else r))
  /\ (forall prefix message v,
        generate_message prefix message (Some v) None
        = (prefix +:+ match message with
                      | Some m => ". " +:+ m
                      | None => ""
                      end)
          +:+ ". in version " +:+ v)
  /\ (forall old_name new_name stacklevel category,
        _message (moved_read_only_property.__init__ old_name new_name None None
                    stacklevel category)
        = "Read-only property '" +:+ old_name +:+ "' has moved to '" +:+ new_name +:+ "'")
  /\ (forall old_name new_name stacklevel category,
        ends_with
          (_message (moved_read_only_property.__init__ old_name new_name (Some "1.0")
                       (Some "?") stacklevel category))
          "in version 1.0 and will be removed in a future version").
Proof.
  unfold moved_read_only_property.__init__. cbn [_message].
  unfold generate_message. repeat split.
  - intros prefix. now rewrite !append_nil_r.
  - intros prefix message.
    exists (prefix +:+ match message with Some m => ". " +:+ m | None => "" end +:+ ". ").
    now rewrite !append_assoc.
  - intros prefix message.
    exists (prefix +:+ match message with Some m => ". " +:+ m | None => "" end +:+ ". ").
    now rewrite !append_assoc.
  - intros prefix message removal_version. now rewrite append_nil_r.
  - intros prefix message v r. now rewrite !append_assoc.
  - intros prefix message v. now rewrite !append_assoc, !append_nil_r.
  - intros old_name new_name stacklevel category. now rewrite !append_nil_r.
  - intros old_name new_name stacklevel category.
    exists (fmt "Read-only property '%s' has moved to '%s'" [old_name; new_name] +:+ ". ").
    now rewrite !append_assoc.
Qed.

(** ** Calls of the wrappers *)

Section Calls.
Context `{Runtime}.

Lemma py_call_VFunc n id args kwargs s :
  py_call (S n) (VFunc id) args kwargs s
  = fn_body id args kwargs (emit (EvCall id args kwargs) s).
Proof. reflexivity. Qed.

Lemma py_call_VMovedFunc n name module_ out_message stacklevel category new_func args kwargs s :
  py_call (S n) (VMovedFunc name module_ out_message stacklevel category new_func) args kwargs s
  = py_call n new_func args kwargs (emit (warn out_message stacklevel category) s).
Proof. reflexivity. Qed.

Lemma py_call_VMovedAttr n env f args kwargs s :
  py_call (S n) (VMovedAttr env f) args kwargs s
  = py_call n f args kwargs
      (emit (warn (wrapper_message env (w_heap s) f) (env_stacklevel env) (env_category env)) s).
Proof. reflexivity. Qed.

Lemma py_call_bound_VMovedAttr n env f self args kwargs s :
  py_call (S n) (VBound (VMovedAttr env f) self) args kwargs s
  = py_call n (VBound f self) args kwargs
      (emit (warn (wrapper_message env (w_heap s) (VBound f self))
               (env_stacklevel env) (env_category env)) s).
Proof. reflexivity. Qed.

Lemma py_call_VMovedInit n out_message stacklevel category f self args kwargs s :
  kwargs_get "self" kwargs = None ->
  py_call (S n) (VMovedInit out_message stacklevel category f) (self :: args) kwargs s
  = py_call n f (self :: args) kwargs (emit (warn out_message stacklevel category) s).
Proof. intros Hkw. cbn [py_call bind_self]. now rewrite Hkw. Qed.

Lemma _moved_decorator_is_wrapper kind new_attribute_name message version removal_version
    stacklevel attr_postfix category h f :
  exists env,
    _moved_decorator kind new_attribute_name message version removal_version
      stacklevel attr_postfix category h f = VMovedAttr env f
    /\ env_kind env = kind
    /\ env_new_attribute_name env = new_attribute_name
    /\ env_message env = message
    /\ env_version env = version
    /\ env_removal_version env = removal_version
    /\ env_stacklevel env = stacklevel
    /\ env_category env = category.
Proof.
  unfold _moved_decorator. destruct (get_qualified_name h f) as [fq old].
  eexists. split; [reflexivity|]. simpl. repeat split.
Qed.

(** ** The heap under [moved_class] *)

Lemma lookup_app_length (h : heap) (o : object) : (h ++ [o]) !! length h = Some o.
Proof. now apply list_lookup_middle. Qed.

Lemma insert_app_length (h : heap) (o o' : object) : <[length h := o']> (h ++ [o]) = h ++ [o'].
Proof.
  rewrite insert_app_r_alt by lia. now replace (length h - length h) with 0 by lia.
Qed.

Lemma mro_lookup_app (h t : heap) (mro : list loc) (name : string) :
  mro_ok h mro = true -> mro_lookup (h ++ t) mro name = mro_lookup h mro name.
Proof.
  unfold mro_ok.
  induction mro as [|k mro IH]; cbn [mro_lookup forallb]; [reflexivity|].
  intros Hok. apply andb_prop in Hok as [Hk Hrest].
  apply Nat.ltb_lt in Hk.
  rewrite lookup_app_l by exact Hk. rewrite (IH Hrest). reflexivity.
Qed.

Lemma heap_wf_class (h : heap) (b : loc) (bo : class_obj) :
  heap_wf h = true -> h !! b = Some (OClass bo) -> mro_ok h (cls_mro bo) = true.
Proof.
  intros Hwf Hb. unfold heap_wf in Hwf. rewrite forallb_forall in Hwf.
  apply (Hwf (OClass bo)). apply list_elem_of_In. eapply list_elem_of_lookup_2. exact Hb.
Qed.

Lemma descr_get_class_plain getattr call (f owner : value) :
  (forall p, f <> VMovedROProp p) -> descr_get getattr call f None owner = ret f.
Proof. intros Hplain. destruct f; try reflexivity. now destruct (Hplain p). Qed.

Lemma type_namespace_empty (caller_module : string) :
  type_namespace caller_module ∅
  = <["__doc__" := VNone]> (<["__module__" := VStr caller_module]> ∅).
Proof.
  unfold type_namespace. rewrite lookup_empty.
  rewrite lookup_insert_ne by discriminate. now rewrite lookup_empty.
Qed.

Lemma type_namespace_empty_init (caller_module : string) :
  type_namespace caller_module ∅ !! "__init__" = None.
Proof. rewrite type_namespace_empty. now rewrite !lookup_insert_ne by discriminate. Qed.

Lemma moved_class_ok n b bo f old_class_name old_module_name message version
    removal_version stacklevel category s :
  mro_ok (w_heap s) (cls_mro bo) = true ->
  w_heap s !! b = Some (OClass bo) ->
  mro_lookup (w_heap s) (cls_mro bo) "__init__" = Some f ->
  (forall p, f <> VMovedROProp p) ->
  moved_class (S n) (VRef b) old_class_name old_module_name message version
    removal_version stacklevel category s
  = (Ok (VRef (length (w_heap s))),
     set_heap
       (w_heap s ++
        [old_class_obj (length (w_heap s)) b bo old_class_name old_module_name
           (VMovedInit
              (moved_class_message (w_heap s) (VRef b) old_class_name old_module_name
                 message version removal_version)
              stacklevel category f)]) s).
Proof.
  intros Hok Hb Hinit Hplain.
  unfold moved_class, isclass. rewrite Hb. simpl negb. cbv iota.
  unfold bind at 1. unfold type_new. rewrite Hb.
  unfold bind at 1. unfold py_setattr at 1. cbn [w_heap set_heap w_trace].
  rewrite lookup_app_length, insert_app_length. cbn [cls_name cls_bases cls_mro cls_dict].
  unfold bind at 1. cbn [py_getattr w_heap set_heap w_trace].
  rewrite lookup_app_length. cbn [cls_mro mro_lookup].
  rewrite lookup_app_length. cbn [cls_dict].
  rewrite lookup_insert_ne by discriminate. rewrite type_namespace_empty_init.
  rewrite (mro_lookup_app _ _ _ _ Hok), Hinit.
  rewrite (descr_get_class_plain _ _ _ _ Hplain). unfold ret at 1.
  unfold bind at 1. unfold py_setattr. cbn [w_heap set_heap w_trace].
  rewrite lookup_app_length, insert_app_length. cbn [cls_name cls_bases cls_mro cls_dict].
  reflexivity.
Qed.



Lemma old_class_lookup_init (h t : heap) b bo old_class_name old_module_name init :
  class_lookup
    ((h ++ [old_class_obj (length h) b bo old_class_name old_module_name init]) ++ t)
    (length h) "__init__" = Some init.
Proof.
  assert (Hl : ((h ++ [old_class_obj (length h) b bo old_class_name
                         old_module_name init]) ++ t) !! length h
               = Some (old_class_obj (length h) b bo old_class_name old_module_name init)).
  { apply lookup_app_l_Some, lookup_app_length. }
  unfold class_lookup. rewrite Hl. unfold old_class_obj at 1.
  cbn [cls_mro mro_lookup]. rewrite Hl. unfold old_class_obj at 1.
  cbn [cls_dict]. now rewrite lookup_insert_eq.
Qed.




(** ** Names in the messages *)

(** C9: [moved_function] appends "()" to the old name (module, ".", function
    name) and to the resolved name of the new function whatever they end
    with, so an old function name that already ends with "()" gives a message
    that contains "()()"; [moved_method] leaves a new name that ends with "()"
    as it is. *)
Theorem C9_moved_function_appends_postfix_unconditionally :
  (forall h new_func old_func_name old_module_name message version removal_version
          stacklevel category,
     moved_function h new_func old_func_name old_module_name message version
       removal_version stacklevel category
     = VMovedFunc old_func_name old_module_name
         (generate_message
            ("Function '" +:+ (old_module_name +:+ "." +:+ old_func_name +:+ "()")
             +:+ "' has moved to '" +:+ (get_callable_name h new_func +:+ "()") +:+ "'")
            message version removal_version)
         stacklevel category new_func)
  /\ (forall h new_func base old_module_name message version removal_version
             stacklevel category,
        exists out_message,
          moved_function h new_func (base +:+ "()") old_module_name message version
            removal_version stacklevel category
          = VMovedFunc (base +:+ "()") old_module_name out_message stacklevel category
              new_func
          /\ contains out_message "()()")
  /\ (forall base message version removal_version stacklevel category h f,
        exists env,
          moved_method (base +:+ "()") message version removal_version stacklevel
            category h f = VMovedAttr env f
          /\ env_new_attribute_name env = base +:+ "()").
Proof.
  split; [|split].
  - intros. unfold moved_function. rewrite fmt_func, join_two.
    unfold _MOVED_CALLABLE_POSTFIX. now rewrite !append_assoc.
  - intros. eexists. split; [reflexivity|].
    destruct (generate_message_prefix
                (fmt _FUNC_MOVED_PREFIX_TPL
                   [join "." [old_module_name; base +:+ "()"] +:+ _MOVED_CALLABLE_POSTFIX;
                    get_callable_name h new_func +:+ _MOVED_CALLABLE_POSTFIX])
                message version removal_version) as [rest ->].
    rewrite fmt_func, join_two. unfold _MOVED_CALLABLE_POSTFIX.
    exists ("Function '" +:+ old_module_name +:+ "." +:+ base).
    exists ("' has moved to '" +:+ get_callable_name h new_func +:+ "()" +:+ "'" +:+ rest).
    now rewrite !append_assoc.
  - intros. unfold moved_method. rewrite endswith_append. cbn [negb].
    destruct (_moved_decorator_is_wrapper "Method" (base +:+ "()")
                message version removal_version stacklevel
                (Some _MOVED_CALLABLE_POSTFIX) category h f)
      as (env & -> & _ & Hnew & _).
    exists env. now split.
Qed.


(** ** Reading and assigning through [moved_read_only_property] *)

Lemma py_getattr_instance_moved n l c d name self s :
  w_heap s !! l = Some (OInst c d) ->
  class_lookup (w_heap s) c name = Some (VMovedROProp self) ->
  d !! name = None ->
  py_getattr (S n) (VRef l) name s
  = moved_read_only_property.__get__ (py_getattr n) self (Some (VRef l)) (VRef c) s.
Proof. intros Hl Hc Hd. cbn [py_getattr]. now rewrite Hl, Hc, Hd. Qed.

Lemma py_getattr_class_moved n l co name self s :
  w_heap s !! l = Some (OClass co) ->
  class_lookup (w_heap s) l name = Some (VMovedROProp self) ->
  py_getattr (S n) (VRef l) name s
  = moved_read_only_property.__get__ (py_getattr n) self None (VRef l) s.
Proof.
  intros Hl Hc. unfold class_lookup in Hc. rewrite Hl in Hc.
  cbn [py_getattr]. now rewrite Hl, Hc.
Qed.

(** C5: [__get__] on an instance is one warning and then
    [getattr(instance, new_name)]; with no instance it is one warning and
    then [getattr(owner, new_name)]; the value, or the exception, is the one
    of that lookup.  So reading the old attribute of an instance whose class
    holds the descriptor (and whose own dictionary does not have the name), or
    reading it on the class, gives the new attribute after one warning. *)
Theorem C5_read_only_property_get :
  (forall getattr self instance owner s,
     moved_read_only_property.__get__ getattr self (Some instance) owner s
     = getattr instance (_new_name self)
         (emit (warn (_message self) (_stacklevel self) (_category self)) s))
  /\ (forall getattr self owner s,
        moved_read_only_property.__get__ getattr self None owner s
        = getattr owner (_new_name self)
            (emit (warn (_message self) (_stacklevel self) (_category self)) s))
  /\ (forall n l c d name self s,
        w_heap s !! l = Some (OInst c d) ->
        class_lookup (w_heap s) c name = Some (VMovedROProp self) ->
        d !! name = None ->
        py_getattr (S n) (VRef l) name s
        = py_getattr n (VRef l) (_new_name self)
            (emit (warn (_message self) (_stacklevel self) (_category self)) s))
  /\ (forall n l co name self s,
        w_heap s !! l = Some (OClass co) ->
        class_lookup (w_heap s) l name = Some (VMovedROProp self) ->
        py_getattr (S n) (VRef l) name s
        = py_getattr n (VRef l) (_new_name self)
            (emit (warn (_message self) (_stacklevel self) (_category self)) s)).
Proof.
  split; [reflexivity|]. split; [reflexivity|]. split.
  - intros n l c d name self s Hl Hc Hd.
    now rewrite (py_getattr_instance_moved n l c d name self s Hl Hc Hd).
  - intros n l co name self s Hl Hc.
    now rewrite (py_getattr_class_moved n l co name self s Hl Hc).
Qed.

(** C8: [__get__] emits the warning before it looks the new name up: when
    neither the instance nor its class has the new name, or, without an
    instance, the owning class does not have it, the access raises the
    attribute error of the lookup in a state that already holds the warning. *)
Theorem C8_warning_precedes_failed_lookup :
  (forall n self l c d owner s,
     w_heap s !! l = Some (OInst c d) ->
     class_lookup (w_heap s) c (_new_name self) = None ->
     d !! _new_name self = None ->
     moved_read_only_property.__get__ (py_getattr (S n)) self (Some (VRef l)) owner s
     = (Raise (AttributeError
                 (fmt "'%s' object has no attribute '%s'"
                    [class_name_of (w_heap s) c; _new_name self])),
        emit (warn (_message self) (_stacklevel self) (_category self)) s))
  /\ (forall n self l co s,
        w_heap s !! l = Some (OClass co) ->
        class_lookup (w_heap s) l (_new_name self) = None ->
        moved_read_only_property.__get__ (py_getattr (S n)) self None (VRef l) s
        = (Raise (AttributeError
                    (fmt "type object '%s' has no attribute '%s'"
                       [cls_name co; _new_name self])),
           emit (warn (_message self) (_stacklevel self) (_category self)) s)).
Proof.
  split.
  - intros n self l c d owner s Hl Hc Hd.
    unfold moved_read_only_property.__get__, bind, deprecation.
    cbn [py_getattr]. cbn [emit w_heap]. now rewrite Hl, Hc, Hd.
  - intros n self l co s Hl Hc. unfold class_lookup in Hc. rewrite Hl in Hc.
    unfold moved_read_only_property.__get__, bind, deprecation.
    cbn [py_getattr]. cbn [emit w_heap]. now rewrite Hl, Hc.
Qed.

(** Assignment to an attribute that the class resolves to a
    [moved_read_only_property]: the descriptor has no [__set__], the value
    goes into the dictionary of the instance. *)
Lemma py_setattr_instance_moved fuel l c d name self x s :
  w_heap s !! l = Some (OInst c d) ->
  class_lookup (w_heap s) c name = Some (VMovedROProp self) ->
  py_setattr fuel (VRef l) name x s
  = (Ok VNone, set_heap (<[l := OInst c (<[name := x]> d)]> (w_heap s)) s).
Proof. intros Hl Hc. unfold py_setattr. now rewrite Hl, Hc. Qed.

(** ** Errors *)

(** C2: [moved_class] applied to a value that is not a class raises a type
    error whose message names the type of the value, and leaves the state as
    it was: no class is created.  No other exception originates in the
    module: an invocation of a wrapper ends with an exception exactly when the
    call, or the attribute lookup, it forwards to does, and with that
    exception (for the constructor wrapper of [moved_class]: an invocation
    that binds its arguments, with no keyword argument named [self]). *)
Theorem C2_moved_class_rejects_non_class :
  (forall fuel new_class old_class_name old_module_name message version removal_version
          stacklevel category s,
     isclass (w_heap s) new_class = false ->
     moved_class fuel new_class old_class_name old_module_name message version
       removal_version stacklevel category s
     = (Raise (TypeError
                 ("Unexpected class type '"
                  +:+ snd (get_qualified_name (w_heap s) (py_type (w_heap s) new_class))
                  +:+ "' (expected class type only)")),
        s))
  /\ (forall h new_func old_func_name old_module_name message version removal_version
             stacklevel category n args kwargs s,
        raised (py_call (S n)
                  (moved_function h new_func old_func_name old_module_name message
                     version removal_version stacklevel category) args kwargs s)
        = raised (py_call n new_func args kwargs
                    (emit (warn (moved_function_message h new_func old_func_name
                                   old_module_name message version removal_version)
                             stacklevel category) s)))
  /\ (forall env f n args kwargs s,
        raised (py_call (S n) (VMovedAttr env f) args kwargs s)
        = raised (py_call n f args kwargs
                    (emit (warn (wrapper_message env (w_heap s) f)
                             (env_stacklevel env) (env_category env)) s)))
  /\ (forall out_message stacklevel category f n self args kwargs s,
        kwargs_get "self" kwargs = None ->
        raised (py_call (S n) (VMovedInit out_message stacklevel category f)
                  (self :: args) kwargs s)
        = raised (py_call n f (self :: args) kwargs
                    (emit (warn out_message stacklevel category) s)))
  /\ (forall getattr self instance owner s,
        raised (moved_read_only_property.__get__ getattr self instance owner s)
        = raised (getattr (match instance with Some i => i | None => owner end)
                    (_new_name self)
                    (emit (warn (_message self) (_stacklevel self) (_category self)) s))).
Proof.
  split; [|split; [reflexivity|split; [reflexivity|split; [|reflexivity]]]].
  - intros fuel new_class old_class_name old_module_name message version removal_version
           stacklevel category s Hcls.
    unfold moved_class. rewrite Hcls. cbn [negb].
    destruct (get_qualified_name (w_heap s) (py_type (w_heap s) new_class))
      as [qual type_name].
    reflexivity.
  - intros out_message stacklevel category f n self args kwargs s Hkw.
    now rewrite py_call_VMovedInit by exact Hkw.
Qed.

(** ** When the message is built *)

(** C6: [moved_function], [moved_read_only_property] and [moved_class] build
    the message once, when the wrapper is constructed: every invocation, in
    any state, emits that string (for the constructor wrapper of
    [moved_class]: every invocation with no keyword argument named [self]).  The wrappers of [moved_method] and
    [moved_property] build the message at each invocation, from the class name
    resolved at that moment for the wrapped callable; only the name of the
    decorated function is resolved at decoration time. *)
Theorem C6_message_built_at_construction_except_decorators :
  (forall h new_func old_func_name old_module_name message version removal_version
          stacklevel category,
     exists out_message,
       forall n args kwargs s,
         py_call (S n)
           (moved_function h new_func old_func_name old_module_name message version
              removal_version stacklevel category) args kwargs s
         = py_call n new_func args kwargs (emit (warn out_message stacklevel category) s))
  /\ (forall old_name new_name version removal_version stacklevel category,
        exists out_message,
          forall getattr instance owner s,
            moved_read_only_property.__get__ getattr
              (moved_read_only_property.__init__ old_name new_name version
                 removal_version stacklevel category) instance owner s
            = getattr (match instance with Some i => i | None => owner end) new_name
                (emit (warn out_message stacklevel category) s))
  /\ (forall n b bo f old_class_name old_module_name message version removal_version
             stacklevel category s,
        heap_wf (w_heap s) = true ->
        w_heap s !! b = Some (OClass bo) ->
        class_lookup (w_heap s) b "__init__" = Some f ->
        (forall p, f <> VMovedROProp p) ->
        exists out_message s',
          moved_class (S n) (VRef b) old_class_name old_module_name message version
            removal_version stacklevel category s
          = (Ok (VRef (length (w_heap s))), s')
          /\ class_lookup (w_heap s') (length (w_heap s)) "__init__"
             = Some (VMovedInit out_message stacklevel category f)
          /\ forall m self args kwargs s2,
               kwargs_get "self" kwargs = None ->
               py_call (S m) (VMovedInit out_message stacklevel category f)
                 (self :: args) kwargs s2
               = py_call m f (self :: args) kwargs
                   (emit (warn out_message stacklevel category) s2))
  /\ (forall env f n args kwargs s,
        py_call (S n) (VMovedAttr env f) args kwargs s
        = py_call n f args kwargs
            (emit (warn (wrapper_message env (w_heap s) f)
                     (env_stacklevel env) (env_category env)) s))
  /\ (forall env f self n args kwargs s,
        py_call (S n) (VBound (VMovedAttr env f) self) args kwargs s
        = py_call n (VBound f self) args kwargs
            (emit (warn (wrapper_message env (w_heap s) (VBound f self))
                     (env_stacklevel env) (env_category env)) s)).
Proof.
  split.
  { intros. eexists. intros. apply py_call_VMovedFunc. }
  split.
  { intros. eexists. intros. reflexivity. }
  split.
  { intros n b bo f old_class_name old_module_name message version removal_version
           stacklevel category s Hwf Hb Hf Hplain.
    eexists. eexists. split.
    - apply (moved_class_ok n b bo f); try assumption.
      + now apply (heap_wf_class _ b).
      + unfold class_lookup in Hf. now rewrite Hb in Hf.
    - split.
      + cbn [w_heap set_heap]. rewrite <- (app_nil_r (w_heap s ++ _)).
        apply old_class_lookup_init.
      + intros m self args kwargs s2 Hkw. now apply py_call_VMovedInit. }
  split; [reflexivity|reflexivity].
Qed.

End Calls.

(** * The example program *)



(** C2 at the example program: [moved_class] applied to the integer 5, and
    the constructor wrapper around a constructor that raises. *)
Lemma C2_witness :
  @moved_class demo_runtime 1 (VInt 5) "Old" "mod" None None None 3 None demo_world
  = (Raise (TypeError "Unexpected class type 'int' (expected class type only)"),
     demo_world)
  /\ raised (@py_call demo_runtime 2 (VMovedInit "moved" 3 None (VFunc "boom"))
               [VRef 3] [] demo_world)
     = Some {| exn_type := "ValueError"; exn_msg := "boom" |}.
Proof.
  destruct (@C2_moved_class_rejects_non_class demo_runtime) as (Hcls & _ & _ & Hinit & _).
  split.
  - apply (Hcls 1 (VInt 5) "Old" "mod" None None None 3%Z None demo_world).
    reflexivity.
  - rewrite (Hinit "moved" 3%Z None (VFunc "boom") 1 (VRef 3) [] [] demo_world eq_refl).
    vm_compute. reflexivity.
Defined.

(** C5 at the example program: reading [old] on the instance [a] and on the
    class [A] gives the value of [new]. *)
Lemma C5_witness :
  fst (@py_getattr demo_runtime 2 (VRef 3) "old" demo_world) = Ok (VInt 5)
  /\ fst (@py_getattr demo_runtime 2 (VRef 1) "old" demo_world) = Ok (VInt 5).
Proof.
  destruct (@C5_read_only_property_get demo_runtime) as (_ & _ & Hinst & Hcls).
  split.
  - rewrite (Hinst 1 3 1 ∅ "old" demo_old demo_world).
    + vm_compute. reflexivity.
    + reflexivity.
    + vm_compute. reflexivity.
    + reflexivity.
  - rewrite (Hcls 1 1 demo_A_obj "old" demo_old demo_world).
    + vm_compute. reflexivity.
    + reflexivity.
    + vm_compute. reflexivity.
Defined.

(** C6 at the example program: the class [moved_class] builds for [A] holds a
    constructor wrapper with its message. *)
Lemma C6_witness :
  exists out_message s',
    @moved_class demo_runtime 1 (VRef 1) "OldA" "oldmod" None None None 3 None demo_world
    = (Ok (VRef 5), s')
    /\ class_lookup (w_heap s') 5 "__init__"
       = Some (VMovedInit out_message 3 None (VFunc "A.__init__"))
    /\ @py_call demo_runtime 2 (VMovedInit out_message 3 None (VFunc "A.__init__"))
         [VRef 3] [] demo_world
       = @py_call demo_runtime 1 (VFunc "A.__init__") [VRef 3] []
           (emit (warn out_message 3 None) demo_world).
Proof.
  destruct (@C6_message_built_at_construction_except_decorators demo_runtime)
    as (_ & _ & Hcls & _).
  destruct (Hcls 0 1 demo_A_obj (VFunc "A.__init__") "OldA" "oldmod" None None None
              3%Z None demo_world) as (out_message & s' & Hs' & Hinit & Hcall).
  - vm_compute. reflexivity.
  - reflexivity.
  - vm_compute. reflexivity.
  - intros p. discriminate.
  - exists out_message, s'. split; [exact Hs'|]. split; [exact Hinit|].
    exact (Hcall 1 (VRef 3) [] [] demo_world eq_refl).
Defined.

(** The two invocations of [old_method] that the counterexample to C6 uses:
    through the instance [a] of [A] and through the instance [b] of [B]. *)
Lemma old_method_messages :
  warnings_of (w_trace (snd (@py_call demo_runtime 3 (VBound demo_old_method (VRef 3))
                               [] [] demo_world)))
  = [ {| w_message := "Method 'A.old_method()' has moved to 'A.new_method()'";
         w_category := DeprecationWarning; w_stacklevel := 3 |} ]
  /\ warnings_of (w_trace (snd (@py_call demo_runtime 3 (VBound demo_old_method (VRef 4))
                                  [] [] demo_world)))
     = [ {| w_message := "Method 'B.old_method()' has moved to 'B.new_method()'";
            w_category := DeprecationWarning; w_stacklevel := 3 |} ].
Proof. split; vm_compute; reflexivity. Qed.

(** C6 as stated fails for [moved_method]: no single message is emitted by
    every invocation of the wrapper of [old_method]; called on [a] it names
    the class [A], called on [b] the class [B]. *)
Lemma C6_counterexample :
  ~ exists out_message,
      forall self,
        warnings_of (w_trace (snd (@py_call demo_runtime 3 (VBound demo_old_method self)
                                     [] [] demo_world)))
        = [ {| w_message := out_message;
               w_category := DeprecationWarning; w_stacklevel := 3 |} ].
Proof.
  intros [out_message Hall].
  destruct old_method_messages as [Ha Hb].
  rewrite (Hall (VRef 3)) in Ha. rewrite (Hall (VRef 4)) in Hb.
  congruence.
Qed.

(** C7 at the example program: [a.old = 7], where the class of [a] holds the
    descriptor under [old], is accepted: the value is stored in the dictionary
    of [a], and a later read of [a.old] gives 7 with no warning, not the new
    attribute.  The same assignment through the read-only [property] under
    [ro] is refused with an attribute error. *)
Theorem C7_assignment_through_descriptor_is_accepted :
  let s' := set_heap (<[3 := OInst 1 {[ "old" := VInt 7 ]}]> demo_heap) demo_world in
  class_lookup demo_heap 1 "old" = Some (VMovedROProp demo_old)
  /\ @py_setattr demo_runtime 5 (VRef 3) "old" (VInt 7) demo_world = (Ok VNone, s')
  /\ @py_getattr demo_runtime 5 (VRef 3) "old" s' = (Ok (VInt 7), s')
  /\ @py_setattr demo_runtime 5 (VRef 3) "ro" (VInt 7) demo_world
     = (Raise (AttributeError "can't set attribute"), demo_world).
Proof. vm_compute. repeat split. Qed.

(** C8 at the example program: reading [gone], whose new name [missing]
    exists nowhere, on the instance [a] and on the class [A]. *)
Lemma C8_witness :
  moved_read_only_property.__get__ (@py_getattr demo_runtime 1) demo_gone
    (Some (VRef 3)) (VRef 1) demo_world
  = (Raise (AttributeError "'A' object has no attribute 'missing'"),
     emit (warn "Read-only property 'gone' has moved to 'missing'" 3 None) demo_world)
  /\ moved_read_only_property.__get__ (@py_getattr demo_runtime 1) demo_gone
       None (VRef 1) demo_world
     = (Raise (AttributeError "type object 'A' has no attribute 'missing'"),
        emit (warn "Read-only property 'gone' has moved to 'missing'" 3 None) demo_world).
Proof.
  destruct (@C8_warning_precedes_failed_lookup demo_runtime) as (Hinst & Hcls).
  split.
  - apply (Hinst 0 demo_gone 3 1 ∅ (VRef 1) demo_world).
    + reflexivity.
    + vm_compute. reflexivity.
    + vm_compute. reflexivity.
  - apply (Hcls 0 demo_gone 1 demo_A_obj demo_world).
    + reflexivity.
    + vm_compute. reflexivity.
Defined.


(** * Further properties *)

Section More.
Context `{Runtime}.

(** ** The class [moved_class] returns *)

Lemma mro_ok_app (h t : heap) (mro : list loc) :
  mro_ok h mro = true -> mro_ok (h ++ t) mro = true.
Proof.
  unfold mro_ok. rewrite !forallb_forall. intros Hok k Hk.
  specialize (Hok k Hk). apply Nat.ltb_lt in Hok. apply Nat.ltb_lt.
  rewrite length_app. lia.
Qed.

Lemma heap_wf_snoc_class (h : heap) (c : class_obj) :
  heap_wf h = true -> mro_ok (h ++ [OClass c]) (cls_mro c) = true ->
  heap_wf (h ++ [OClass c]) = true.
Proof.
  intros Hwf Hc. unfold heap_wf in *. rewrite forallb_app. apply andb_true_intro. split.
  - rewrite forallb_forall in *. intros o Ho. specialize (Hwf o Ho).
    destruct o as [co|]; [|reflexivity]. now apply mro_ok_app.
  - cbn [forallb]. now rewrite Hc.
Qed.

Lemma old_class_mro_ok (h : heap) (bo : class_obj) (o : object) :
  mro_ok h (cls_mro bo) = true ->
  mro_ok (h ++ [o]) (length h :: cls_mro bo) = true.
Proof.
  intros Hok. unfold mro_ok. cbn [forallb]. apply andb_true_intro. split.
  - apply Nat.ltb_lt. rewrite length_app. cbn [length]. lia.
  - now apply mro_ok_app.
Qed.

Lemma moved_class_heap_wf (h : heap) b bo old_class_name old_module_name init :
  heap_wf h = true -> mro_ok h (cls_mro bo) = true ->
  heap_wf (h ++ [old_class_obj (length h) b bo old_class_name old_module_name init]) = true.
Proof.
  intros Hwf Hok. unfold old_class_obj. apply heap_wf_snoc_class; [exact Hwf|].
  cbn [cls_mro]. now apply old_class_mro_ok.
Qed.

Lemma class_lookup_hyp (h : heap) b bo name f :
  h !! b = Some (OClass bo) -> class_lookup h b name = Some f ->
  mro_lookup h (cls_mro bo) name = Some f.
Proof. intros Hb Hf. unfold class_lookup in Hf. now rewrite Hb in Hf. Qed.

Lemma old_class_dict_plain (name old_module_name : string) (init : value) :
  String.prefix "__" name = false ->
  (<["__init__" := init]>
     (<["__module__" := VStr old_module_name]> (type_namespace __name__ ∅))) !! name = None.
Proof.
  intros Hplain. rewrite type_namespace_empty.
  rewrite !lookup_insert_ne; [apply lookup_empty|intros <-; discriminate ..].
Qed.

(** X1: [moved_class] keeps the heap well formed and returns a class, so its
    result can be used wherever a class can, also as the [new_class] of
    another [moved_class]. *)
Theorem X1_moved_class_keeps_heap_well_formed
    n b bo f old_class_name old_module_name message version removal_version
    stacklevel category s r s' :
  heap_wf (w_heap s) = true ->
  w_heap s !! b = Some (OClass bo) ->
  class_lookup (w_heap s) b "__init__" = Some f ->
  (forall p, f <> VMovedROProp p) ->
  moved_class (S n) (VRef b) old_class_name old_module_name message version
    removal_version stacklevel category s = (r, s') ->
  exists l, r = Ok (VRef l)
            /\ isclass (w_heap s') (VRef l) = true
            /\ heap_wf (w_heap s') = true
            /\ length (w_heap s') = S (length (w_heap s)).
Proof.
  intros Hwf Hb Hf Hplain Hrun.
  pose proof (heap_wf_class _ _ _ Hwf Hb) as Hok.
  rewrite (moved_class_ok n b bo f) in Hrun;
    [|exact Hok|exact Hb|now apply (class_lookup_hyp _ b)|exact Hplain].
  injection Hrun as <- <-. eexists. split; [reflexivity|].
  cbn [w_heap set_heap]. split; [|split].
  - unfold isclass. now rewrite lookup_app_length.
  - now apply moved_class_heap_wf.
  - rewrite length_app. cbn [length]. lia.
Qed.

(** X2: the class [moved_class] returns has the old name, [new_class] as its
    only base, the old module name under [__module__] and, from [type()],
    [None] under [__doc__]; every attribute whose name does not begin with
    two underscores resolves on it to what it resolves to on [new_class]. *)
Theorem X2_moved_class_result_inherits
    n b bo f old_class_name old_module_name message version removal_version
    stacklevel category s :
  heap_wf (w_heap s) = true ->
  w_heap s !! b = Some (OClass bo) ->
  class_lookup (w_heap s) b "__init__" = Some f ->
  (forall p, f <> VMovedROProp p) ->
  exists s' co,
    moved_class (S n) (VRef b) old_class_name old_module_name message version
      removal_version stacklevel category s = (Ok (VRef (length (w_heap s))), s')
    /\ w_heap s' !! length (w_heap s) = Some (OClass co)
    /\ cls_name co = old_class_name
    /\ cls_bases co = [b]
    /\ cls_mro co = length (w_heap s) :: cls_mro bo
    /\ class_lookup (w_heap s') (length (w_heap s)) "__module__"
       = Some (VStr old_module_name)
    /\ class_lookup (w_heap s') (length (w_heap s)) "__doc__" = Some VNone
    /\ forall name,
         String.prefix "__" name = false ->
         class_lookup (w_heap s') (length (w_heap s)) name
         = class_lookup (w_heap s) b name.
Proof.
  intros Hwf Hb Hf Hplain.
  pose proof (heap_wf_class _ _ _ Hwf Hb) as Hok.
  eexists. eexists. split.
  { apply (moved_class_ok n b bo f); try assumption. now apply (class_lookup_hyp _ b). }
  cbn [w_heap set_heap]. split; [apply lookup_app_length|].
  cbn [cls_name cls_bases cls_mro]. repeat (split; [reflexivity|]).
  split.
  - unfold class_lookup. rewrite lookup_app_length. unfold old_class_obj at 1.
    cbn [cls_mro mro_lookup]. rewrite lookup_app_length. unfold old_class_obj at 1.
    cbn [cls_dict]. rewrite lookup_insert_ne by discriminate.
    now rewrite lookup_insert_eq.
  - split.
    + unfold class_lookup. rewrite lookup_app_length. unfold old_class_obj at 1.
      cbn [cls_mro mro_lookup]. rewrite lookup_app_length. unfold old_class_obj at 1.
      cbn [cls_dict]. rewrite type_namespace_empty.
      rewrite !lookup_insert_ne by discriminate. now rewrite lookup_insert_eq.
    + intros name Hname.
      unfold class_lookup at 1. rewrite lookup_app_length. unfold old_class_obj at 1.
      cbn [cls_mro mro_lookup]. rewrite lookup_app_length. unfold old_class_obj at 1.
      cbn [cls_dict]. rewrite (old_class_dict_plain _ _ _ Hname).
      rewrite (mro_lookup_app _ _ _ _ Hok). unfold class_lookup. now rewrite Hb.
Qed.

(** X3: the class [moved_class] returns is a subclass, not a copy: an
    attribute assigned to [new_class] afterwards, under a name that does not
    begin with two underscores, is seen through the returned class.  Its
    constructor is the exception: the wrapper holds the
    [__init__] that was resolved when [moved_class] ran, and a later
    replacement of [new_class.__init__] does not reach the returned class. *)
Theorem X3_moved_class_aliases_new_class_but_snapshots_init
    n b bo rest f old_class_name old_module_name message version removal_version
    stacklevel category s :
  heap_wf (w_heap s) = true ->
  w_heap s !! b = Some (OClass bo) ->
  cls_mro bo = b :: rest ->
  class_lookup (w_heap s) b "__init__" = Some f ->
  (forall p, f <> VMovedROProp p) ->
  exists s',
    moved_class (S n) (VRef b) old_class_name old_module_name message version
      removal_version stacklevel category s = (Ok (VRef (length (w_heap s))), s')
    /\ (forall fuel name x,
          String.prefix "__" name = false ->
          exists s'',
            py_setattr fuel (VRef b) name x s' = (Ok VNone, s'')
            /\ class_lookup (w_heap s'') (length (w_heap s)) name = Some x)
    /\ (forall fuel g,
          exists s'',
            py_setattr fuel (VRef b) "__init__" g s' = (Ok VNone, s'')
            /\ class_lookup (w_heap s'') b "__init__" = Some g
            /\ class_lookup (w_heap s'') (length (w_heap s)) "__init__"
               = Some (VMovedInit
                         (moved_class_message (w_heap s) (VRef b) old_class_name
                            old_module_name message version removal_version)
                         stacklevel category f)).
Proof.
  intros Hwf Hb Hmro Hf Hplain.
  pose proof (heap_wf_class _ _ _ Hwf Hb) as Hok.
  pose proof (lookup_lt_Some _ _ _ Hb) as Hlt.
  eexists. split.
  { apply (moved_class_ok n b bo f); try assumption. now apply (class_lookup_hyp _ b). }
  set (init := VMovedInit _ stacklevel category f).
  set (h := w_heap s) in *.
  set (oc := old_class_obj (length h) b bo old_class_name old_module_name init).
  assert (Hset : forall fuel name x,
             py_setattr fuel (VRef b) name x (set_heap (h ++ [oc]) s)
             = (Ok VNone,
                set_heap (<[b := OClass {| cls_name := cls_name bo;
                                          cls_bases := cls_bases bo;
                                          cls_mro := cls_mro bo;
                                          cls_dict := <[name := x]> (cls_dict bo) |}]>
                            (h ++ [oc])) s)).
  { intros fuel name x. unfold py_setattr. cbn [w_heap set_heap].
    now rewrite (lookup_app_l_Some _ _ _ _ Hb). }
  assert (Hl : forall o, <[b := o]> (h ++ [oc]) !! length h = Some oc).
  { intros o. rewrite list_lookup_insert_ne by lia. apply lookup_app_length. }
  assert (Hbb : forall o, <[b := o]> (h ++ [oc]) !! b = Some o).
  { intros o. apply list_lookup_insert_eq. rewrite length_app. lia. }
  split.
  - intros fuel name x Hname. eexists. split; [apply Hset|].
    cbn [w_heap set_heap]. unfold class_lookup. rewrite Hl. unfold oc at 1, old_class_obj at 1.
    cbn [cls_mro mro_lookup]. rewrite Hl. unfold oc at 1, old_class_obj at 1.
    cbn [cls_dict]. rewrite (old_class_dict_plain _ _ _ Hname).
    rewrite Hmro. cbn [mro_lookup]. rewrite Hbb. cbn [cls_dict].
    now rewrite lookup_insert_eq.
  - intros fuel g. eexists. split; [apply Hset|].
    cbn [w_heap set_heap]. split.
    + unfold class_lookup. rewrite Hbb. cbn [cls_mro]. rewrite Hmro.
      cbn [mro_lookup]. rewrite Hbb. cbn [cls_dict]. now rewrite lookup_insert_eq.
    + unfold class_lookup. rewrite Hl. unfold oc at 1, old_class_obj at 1.
      cbn [cls_mro mro_lookup]. rewrite Hl. unfold oc at 1, old_class_obj at 1.
      cbn [cls_dict]. now rewrite lookup_insert_eq.
Qed.


(** ** Wrappers of wrappers *)

Lemma emit_all_nil (s : world) : emit_all [] s = s.
Proof. destruct s as [h t]. unfold emit_all. cbn [w_heap w_trace]. now rewrite app_nil_r. Qed.

Lemma emit_all_cons (e : event) (es : list event) (s : world) :
  emit_all es (emit e s) = emit_all (e :: es) s.
Proof.
  unfold emit_all, emit. cbn [w_heap w_trace]. f_equal. now rewrite <- app_assoc.
Qed.

(** X5: a function moved several times.  Calling the outermost wrapper emits
    the warnings of all the wrappers, outermost first, and then calls the
    function once with the arguments of the call; each wrapper takes one level
    of the recursion depth. *)
Theorem X5_moved_function_chain h olds stacklevel category :
  (forall new_func n args kwargs s,
     py_call (length olds + n)
       (moved_function_chain h olds stacklevel category new_func) args kwargs s
     = py_call n new_func args kwargs
         (emit_all (chain_warnings h olds stacklevel category new_func) s))
  /\ (forall id n args kwargs s,
        py_call (length olds + S n)
          (moved_function_chain h olds stacklevel category (VFunc id)) args kwargs s
        = fn_body id args kwargs
            (emit (EvCall id args kwargs)
               (emit_all (chain_warnings h olds stacklevel category (VFunc id)) s))).
Proof.
  assert (Hchain : forall new_func n args kwargs s,
             py_call (length olds + n)
               (moved_function_chain h olds stacklevel category new_func) args kwargs s
             = py_call n new_func args kwargs
                 (emit_all (chain_warnings h olds stacklevel category new_func) s)).
  { intros new_func n args kwargs.
    induction olds as [|[old_func_name old_module_name] rest IH]; intros s.
    - cbn [length moved_function_chain chain_warnings Nat.add]. now rewrite emit_all_nil.
    - cbn [length moved_function_chain chain_warnings Nat.add].
      unfold moved_function at 1. rewrite py_call_VMovedFunc.
      rewrite IH. now rewrite emit_all_cons. }
  split; [exact Hchain|].
  intros id n args kwargs s. rewrite Hchain. apply py_call_VFunc.
Qed.

(** ** Messages of [moved_method] and [moved_property] *)

(** X6: the warning of a [moved_method] or [moved_property] wrapper, in full.
    The name of the decorated function is resolved on the heap of the
    decoration, the class name on the heap of the call.  When the resolved
    name is fully qualified it is the old name as it is, otherwise the class
    name and "." come before it; the new name always follows the class name
    and ".".  [moved_method] appends "()" to the old name whatever it ends
    with; [moved_property] appends nothing to either name. *)
Theorem X6_moved_decorator_message :
  (forall new_method_name message version removal_version stacklevel category h f
          n args kwargs s,
     let base_name := get_class_name (w_heap s) f (Some false) in
     let resolved := snd (get_qualified_name h f) +:+ "()" in
     let old_name :=
       if fst (get_qualified_name h f) then resolved
       else base_name +:+ "." +:+ resolved in
     let new_name :=
       base_name +:+ "."
       +:+ (if endswith new_method_name "()" then new_method_name
            else new_method_name +:+ "()") in
     py_call (S n)
       (moved_method new_method_name message version removal_version stacklevel
          category h f) args kwargs s
     = py_call n f args kwargs
         (emit (warn (generate_message
                        ("Method '" +:+ old_name +:+ "' has moved to '" +:+ new_name +:+ "'")
                        message version removal_version) stacklevel category) s))
  /\ (forall new_attribute_name message version removal_version stacklevel category h f
             n args kwargs s,
        let base_name := get_class_name (w_heap s) f (Some false) in
        let resolved := snd (get_qualified_name h f) in
        let old_name :=
          if fst (get_qualified_name h f) then resolved
          else base_name +:+ "." +:+ resolved in
        let new_name := base_name +:+ "." +:+ new_attribute_name in
        py_call (S n)
          (moved_property new_attribute_name message version removal_version stacklevel
             category h f) args kwargs s
        = py_call n f args kwargs
            (emit (warn (generate_message
                           ("Property '" +:+ old_name +:+ "' has moved to '"
                            +:+ new_name +:+ "'")
                           message version removal_version) stacklevel category) s)).
Proof.
  split.
  - intros. unfold moved_method, _moved_decorator.
    subst base_name resolved old_name new_name.
    destruct (get_qualified_name h f) as [fq old]. cbn [fst snd].
    rewrite py_call_VMovedAttr. unfold wrapper_message.
    cbn [env_kind env_new_attribute_name env_message env_version env_removal_version
         env_stacklevel env_category env_fully_qualified env_old_attribute_name].
    rewrite fmt_kind, !join_two. unfold _MOVED_CALLABLE_POSTFIX.
    replace (String.eqb "()" "") with false by reflexivity.
    destruct fq, (endswith new_method_name "()"); cbn [negb];
      now rewrite ?append_assoc.
  - intros. unfold moved_property, _moved_decorator.
    subst base_name resolved old_name new_name.
    destruct (get_qualified_name h f) as [fq old]. cbn [fst snd].
    rewrite py_call_VMovedAttr. unfold wrapper_message.
    cbn [env_kind env_new_attribute_name env_message env_version env_removal_version
         env_stacklevel env_category env_fully_qualified env_old_attribute_name].
    rewrite fmt_kind, !join_two.
    destruct fq; now rewrite ?append_assoc.
Qed.

(** ** Attribute access around [moved_read_only_property] *)

Lemma mro_lookup_insert_inst (h : heap) (l c c' : loc) (d d' : gmap string value)
    (mro : list loc) (name : string) :
  h !! l = Some (OInst c d) ->
  mro_lookup (<[l := OInst c' d']> h) mro name = mro_lookup h mro name.
Proof.
  intros Hl. induction mro as [|k mro IH]; cbn [mro_lookup]; [reflexivity|].
  destruct (decide (l = k)) as [<-|Hne].
  - rewrite list_lookup_insert_eq by (eapply lookup_lt_Some; exact Hl).
    rewrite Hl. exact IH.
  - rewrite list_lookup_insert_ne by exact Hne. now rewrite IH.
Qed.

Lemma class_lookup_insert_inst (h : heap) (l c c' k : loc) (d d' : gmap string value)
    (name : string) :
  h !! l = Some (OInst c d) ->
  class_lookup (<[l := OInst c' d']> h) k name = class_lookup h k name.
Proof.
  intros Hl. unfold class_lookup. destruct (decide (l = k)) as [<-|Hne].
  - rewrite list_lookup_insert_eq by (eapply lookup_lt_Some; exact Hl). now rewrite Hl.
  - rewrite list_lookup_insert_ne by exact Hne.
    destruct (h !! k) as [[co|]|]; try reflexivity.
    now apply (mro_lookup_insert_inst h l c c' d d').
Qed.

(** X7: a [moved_read_only_property] whose new name is the name it is stored
    under never yields a value: whatever the recursion depth, the read emits
    one warning per level and ends with [RecursionError]. *)
Theorem X7_read_only_property_naming_itself n l c d name self s :
  w_heap s !! l = Some (OInst c d) ->
  class_lookup (w_heap s) c name = Some (VMovedROProp self) ->
  d !! name = None ->
  _new_name self = name ->
  py_getattr n (VRef l) name s
  = (Raise RecursionError,
     emit_all (repeat (warn (_message self) (_stacklevel self) (_category self)) n) s).
Proof.
  intros Hl Hc Hd Hnew. revert s Hl Hc.
  induction n as [|n IH]; intros s Hl Hc.
  - cbn [py_getattr repeat]. now rewrite emit_all_nil.
  - rewrite (py_getattr_instance_moved n l c d name self s Hl Hc Hd).
    unfold moved_read_only_property.__get__, bind, deprecation. rewrite Hnew.
    fold (warn (_message self) (_stacklevel self) (_category self)).
    rewrite IH by assumption. cbn [repeat]. now rewrite emit_all_cons.
Qed.

(** X8: the descriptor does not guard the old name against the dictionary of
    the instance.  An entry under the old name there is what a read returns,
    with no warning; and an assignment to the old name through the instance
    makes such an entry, so that the read that follows returns the assigned
    value and the new attribute is no longer reached. *)
Theorem X8_instance_entry_shadows_descriptor :
  (forall n l c d name self x s,
     w_heap s !! l = Some (OInst c d) ->
     class_lookup (w_heap s) c name = Some (VMovedROProp self) ->
     d !! name = Some x ->
     py_getattr (S n) (VRef l) name s = (Ok x, s))
  /\ (forall fuel n l c d name self x s,
        w_heap s !! l = Some (OInst c d) ->
        class_lookup (w_heap s) c name = Some (VMovedROProp self) ->
        exists s',
          py_setattr fuel (VRef l) name x s = (Ok VNone, s')
          /\ w_trace s' = w_trace s
          /\ py_getattr (S n) (VRef l) name s' = (Ok x, s')).
Proof.
  assert (Hread : forall n l c d name self x s,
             w_heap s !! l = Some (OInst c d) ->
             class_lookup (w_heap s) c name = Some (VMovedROProp self) ->
             d !! name = Some x ->
             py_getattr (S n) (VRef l) name s = (Ok x, s)).
  { intros n l c d name self x s Hl Hc Hd. cbn [py_getattr].
    rewrite Hl, Hc. cbn [is_data_descriptor]. now rewrite Hd. }
  split; [exact Hread|].
  intros fuel n l c d name self x s Hl Hc.
  eexists. split; [apply (py_setattr_instance_moved fuel l c d name self x s Hl Hc)|].
  split; [reflexivity|].
  apply (Hread n l c (<[name := x]> d) name self x).
  - cbn [w_heap set_heap]. apply list_lookup_insert_eq. eapply lookup_lt_Some. exact Hl.
  - cbn [w_heap set_heap]. now rewrite (class_lookup_insert_inst _ l c c c d).
  - apply lookup_insert_eq.
Qed.

(** ** Decorated methods and properties, read and called *)

(** X9: a method decorated with [moved_method] or [moved_property], read on
    an instance, is bound to the instance with no warning; calling the bound
    method emits one warning, whose class name is resolved for the original
    method bound to the instance, and enters the body of the original method
    once, with the instance before the arguments of the call. *)
Theorem X9_decorated_method_through_instance n l c d name env id s :
  w_heap s !! l = Some (OInst c d) ->
  class_lookup (w_heap s) c name = Some (VMovedAttr env (VFunc id)) ->
  d !! name = None ->
  py_getattr (S n) (VRef l) name s = (Ok (VBound (VMovedAttr env (VFunc id)) (VRef l)), s)
  /\ forall m args kwargs s2,
       py_call (S (S (S m))) (VBound (VMovedAttr env (VFunc id)) (VRef l)) args kwargs s2
       = fn_body id (VRef l :: args) kwargs
           (emit (EvCall id (VRef l :: args) kwargs)
              (emit (warn (wrapper_message env (w_heap s2) (VBound (VFunc id) (VRef l)))
                       (env_stacklevel env) (env_category env)) s2)).
Proof.
  intros Hl Hc Hd. split.
  - cbn [py_getattr]. rewrite Hl, Hc. cbn [is_data_descriptor]. now rewrite Hd.
  - intros m args kwargs s2. now rewrite py_call_bound_VMovedAttr.
Qed.

(** X10: the getter of a [property] decorated with [moved_property].  Reading
    the property on an instance emits one warning and enters the body of the
    getter once, with the instance as its only argument; the read yields what
    the getter yields.  The dictionary of the instance is not consulted. *)
Theorem X10_moved_property_under_property n l c d name env id fset s :
  w_heap s !! l = Some (OInst c d) ->
  class_lookup (w_heap s) c name = Some (VProperty (VMovedAttr env (VFunc id)) fset) ->
  py_getattr (S (S (S n))) (VRef l) name s
  = fn_body id [VRef l] []
      (emit (EvCall id [VRef l] [])
         (emit (warn (wrapper_message env (w_heap s) (VFunc id))
                  (env_stacklevel env) (env_category env)) s)).
Proof.
  intros Hl Hc. cbn [py_getattr]. rewrite Hl, Hc. cbn [is_data_descriptor descr_get].
  now rewrite py_call_VMovedAttr.
Qed.

(** X11: the wrapper [moved_function] returns is a function like any other:
    stored on a class and read on an instance it is bound to the instance,
    and the call of the bound wrapper emits the warning and then calls the
    new function with the instance before the arguments of the call. *)
Theorem X11_moved_function_as_method :
  (forall n l c d name h new_func old_func_name old_module_name message version
          removal_version stacklevel category s,
     let wrapper :=
       moved_function h new_func old_func_name old_module_name message version
         removal_version stacklevel category in
     w_heap s !! l = Some (OInst c d) ->
     class_lookup (w_heap s) c name = Some wrapper ->
     d !! name = None ->
     py_getattr (S n) (VRef l) name s = (Ok (VBound wrapper (VRef l)), s))
  /\ (forall h new_func old_func_name old_module_name message version removal_version
             stacklevel category self n args kwargs s,
        py_call (S (S n))
          (VBound (moved_function h new_func old_func_name old_module_name message
                     version removal_version stacklevel category) self) args kwargs s
        = py_call n new_func (self :: args) kwargs
            (emit (warn (moved_function_message h new_func old_func_name old_module_name
                           message version removal_version) stacklevel category) s)).
Proof.
  split.
  - intros n l c d name h new_func old_func_name old_module_name message version
           removal_version stacklevel category s wrapper Hl Hc Hd.
    cbn [py_getattr]. rewrite Hl, Hc. unfold wrapper, moved_function.
    cbn [is_data_descriptor]. now rewrite Hd.
  - reflexivity.
Qed.

(** ** Decorators on decorators, calls after calls *)

(** X12: two decorators of [_moved_decorator] on one function.  A call of
    the result, direct or through a receiver, emits the warning of the outer
    decorator, then the warning of the inner one, and then calls the function
    once. *)
Theorem X12_moved_decorator_twice env2 env1 f :
  (forall n args kwargs s,
     py_call (S (S n)) (VMovedAttr env2 (VMovedAttr env1 f)) args kwargs s
     = py_call n f args kwargs
         (emit (warn (wrapper_message env1 (w_heap s) f)
                  (env_stacklevel env1) (env_category env1))
            (emit (warn (wrapper_message env2 (w_heap s) (VMovedAttr env1 f))
                     (env_stacklevel env2) (env_category env2)) s)))
  /\ (forall self n args kwargs s,
        py_call (S (S n)) (VBound (VMovedAttr env2 (VMovedAttr env1 f)) self) args kwargs s
        = py_call n (VBound f self) args kwargs
            (emit (warn (wrapper_message env1 (w_heap s) (VBound f self))
                     (env_stacklevel env1) (env_category env1))
               (emit (warn (wrapper_message env2 (w_heap s)
                              (VBound (VMovedAttr env1 f) self))
                        (env_stacklevel env2) (env_category env2)) s))).
Proof.
  split.
  - intros n args kwargs s. now rewrite !py_call_VMovedAttr.
  - intros self n args kwargs s. now rewrite !py_call_bound_VMovedAttr.
Qed.

Lemma warnings_of_app (t1 t2 : list event) :
  warnings_of (t1 ++ t2) = warnings_of t1 ++ warnings_of t2.
Proof.
  induction t1 as [|[w|id args kwargs] t1 IH]; cbn [warnings_of app];
    [reflexivity| |exact IH].
  now rewrite IH.
Qed.

Lemma warnings_of_rounds (w : warning) (id : fn_id) (args : list value) (kwargs : kwargs_t)
    (k : nat) :
  warnings_of (concat (repeat [EvWarn w; EvCall id args kwargs] k)) = repeat w k.
Proof.
  induction k as [|k IH]; [reflexivity|].
  cbn [repeat concat app warnings_of]. now rewrite IH.
Qed.

(** X13: nothing is remembered between the calls of a wrapper.  When the body
    of the target returns and leaves the state as it finds it, [k] calls of
    the wrapper [moved_function] returns end without exception and add to the
    trace [k] times the warning followed by the entry of the target, so the
    warning channel receives the same warning [k] times. *)
Theorem X13_every_call_warns_again
    h id old_func_name old_module_name message version removal_version stacklevel
    category n k args kwargs s :
  (forall s0, exists r, fn_body id args kwargs s0 = (Ok r, s0)) ->
  let wrapper :=
    moved_function h (VFunc id) old_func_name old_module_name message version
      removal_version stacklevel category in
  let w :=
    {| w_message := moved_function_message h (VFunc id) old_func_name old_module_name
                      message version removal_version;
       w_category := default DeprecationWarning category;
       w_stacklevel := stacklevel |} in
  py_call_times (S (S n)) k wrapper args kwargs s
  = (Ok VNone, emit_all (concat (repeat [EvWarn w; EvCall id args kwargs] k)) s)
  /\ warnings_of (w_trace (snd (py_call_times (S (S n)) k wrapper args kwargs s)))
     = warnings_of (w_trace s) ++ repeat w k.
Proof.
  intros Hbody wrapper w.
  assert (Hrun : forall s1,
             py_call_times (S (S n)) k wrapper args kwargs s1
             = (Ok VNone,
                emit_all (concat (repeat [EvWarn w; EvCall id args kwargs] k)) s1)).
  { induction k as [|k IH]; intros s1.
    - cbn [py_call_times repeat concat]. now rewrite emit_all_nil.
    - cbn [py_call_times]. unfold bind. unfold wrapper at 1, moved_function at 1.
      rewrite py_call_VMovedFunc, py_call_VFunc.
      match goal with
      | |- context [fn_body id args kwargs ?s0] => destruct (Hbody s0) as [r ->]
      end.
      rewrite IH. cbn [repeat concat app]. now rewrite !emit_all_cons. }
  split; [apply Hrun|].
  rewrite Hrun. cbn [snd]. unfold emit_all. cbn [w_trace].
  now rewrite warnings_of_app, warnings_of_rounds.
Qed.

End More.

(** * The example programs, again *)

(** X1 at the first program: the heap after [moved_class] on [A]. *)
Lemma X1_witness :
  heap_wf (w_heap (snd (@moved_class demo_runtime 1 (VRef 1) "OldA" "oldmod"
                          None None None 3 None demo_world))) = true.
Proof.
  destruct (@X1_moved_class_keeps_heap_well_formed demo_runtime
              0 1 demo_A_obj (VFunc "A.__init__") "OldA" "oldmod" None None None
              3%Z None demo_world
              (fst (@moved_class demo_runtime 1 (VRef 1) "OldA" "oldmod"
                      None None None 3 None demo_world))
              (snd (@moved_class demo_runtime 1 (VRef 1) "OldA" "oldmod"
                      None None None 3 None demo_world)))
    as (l & _ & _ & Hwf & _).
  - vm_compute. reflexivity.
  - reflexivity.
  - vm_compute. reflexivity.
  - intros p. discriminate.
  - vm_compute. reflexivity.
  - exact Hwf.
Defined.

(** X2 at the first program: [OldA.new] is [A.new]. *)
Lemma X2_witness :
  exists s',
    @moved_class demo_runtime 1 (VRef 1) "OldA" "oldmod" None None None 3 None demo_world
    = (Ok (VRef 5), s')
    /\ class_lookup (w_heap s') 5 "new" = Some (VInt 5).
Proof.
  destruct (@X2_moved_class_result_inherits demo_runtime
              0 1 demo_A_obj (VFunc "A.__init__") "OldA" "oldmod" None None None
              3%Z None demo_world)
    as (s' & co & Hs' & _ & _ & _ & _ & _ & _ & Hinh).
  - vm_compute. reflexivity.
  - reflexivity.
  - vm_compute. reflexivity.
  - intros p. discriminate.
  - exists s'. split; [exact Hs'|].
    refine (eq_trans (Hinh "new" _) _); [reflexivity | vm_compute; reflexivity].
Defined.

(** X3 at the first program: [A.extra = 9] after the move is seen as
    [OldA.extra]. *)
Lemma X3_witness :
  exists s' s'',
    @moved_class demo_runtime 1 (VRef 1) "OldA" "oldmod" None None None 3 None demo_world
    = (Ok (VRef 5), s')
    /\ @py_setattr demo_runtime 1 (VRef 1) "extra" (VInt 9) s' = (Ok VNone, s'')
    /\ class_lookup (w_heap s'') 5 "extra" = Some (VInt 9).
Proof.
  destruct (@X3_moved_class_aliases_new_class_but_snapshots_init demo_runtime
              0 1 demo_A_obj [0] (VFunc "A.__init__") "OldA" "oldmod" None None None
              3%Z None demo_world)
    as (s' & Hs' & Halias & _).
  - vm_compute. reflexivity.
  - reflexivity.
  - reflexivity.
  - vm_compute. reflexivity.
  - intros p. discriminate.
  - destruct (Halias 1 "extra" (VInt 9)) as (s'' & Hset & Hget); [reflexivity|].
    exists s', s''. split; [exact Hs'|]. split; [exact Hset | exact Hget].
Defined.


(** X7 at the second program: reading [c.loop] with three levels of depth. *)
Lemma X7_witness :
  @py_getattr demo_runtime 3 (VRef 6) "loop" demo_world2
  = (Raise RecursionError,
     emit_all (repeat (warn "Read-only property 'loop' has moved to 'loop'" 3 None) 3)
       demo_world2).
Proof.
  apply (@X7_read_only_property_naming_itself demo_runtime 3 6 5 ∅ "loop" demo_loop
           demo_world2).
  - reflexivity.
  - vm_compute. reflexivity.
  - vm_compute. reflexivity.
  - reflexivity.
Defined.

(** X8 at the first program: [a.old = 7], then [a.old]; and the read on the
    heap where the dictionary of [a] has the entry. *)
Lemma X8_witness :
  @py_getattr demo_runtime 1 (VRef 3) "old"
    (set_heap (<[3 := OInst 1 {[ "old" := VInt 7 ]}]> demo_heap) demo_world)
  = (Ok (VInt 7), set_heap (<[3 := OInst 1 {[ "old" := VInt 7 ]}]> demo_heap) demo_world)
  /\ exists s',
       @py_setattr demo_runtime 1 (VRef 3) "old" (VInt 7) demo_world = (Ok VNone, s')
       /\ @py_getattr demo_runtime 1 (VRef 3) "old" s' = (Ok (VInt 7), s').
Proof.
  destruct (@X8_instance_entry_shadows_descriptor demo_runtime) as (Hread & Hwrite).
  split.
  - apply (Hread 0 3 1 {[ "old" := VInt 7 ]} "old" demo_old).
    + vm_compute. reflexivity.
    + vm_compute. reflexivity.
    + vm_compute. reflexivity.
  - destruct (Hwrite 1 0 3 1 ∅ "old" demo_old (VInt 7) demo_world)
      as (s' & Hset & _ & Hget).
    + reflexivity.
    + vm_compute. reflexivity.
    + exists s'. split; [exact Hset | exact Hget].
Defined.

(** X9 at the first program: [a.old_method]. *)
Lemma X9_witness :
  @py_getattr demo_runtime 1 (VRef 3) "old_method" demo_world
  = (Ok (VBound demo_old_method (VRef 3)), demo_world).
Proof.
  apply (@X9_decorated_method_through_instance demo_runtime 0 3 1 ∅ "old_method"
           {| env_kind := "Method"; env_new_attribute_name := "new_method()";
              env_message := None; env_version := None; env_removal_version := None;
              env_stacklevel := 3; env_category := None;
              env_fully_qualified := false;
              env_old_attribute_name := "old_method()" |}
           "old_method" demo_world).
  - reflexivity.
  - vm_compute. reflexivity.
  - vm_compute. reflexivity.
Defined.

(** X10 at the second program: [c.old_prop] is 1, after one warning; the
    resolver of the example knows no class for a plain function. *)
Lemma X10_witness :
  @py_getattr demo_runtime 3 (VRef 6) "old_prop" demo_world2
  = (Ok (VInt 1),
     emit (EvCall "one" [VRef 6] [])
       (emit (warn "Property '<unknown>.one' has moved to '<unknown>.new_prop'" 3 None)
          demo_world2)).
Proof.
  rewrite (@X10_moved_property_under_property demo_runtime 0 6 5 ∅ "old_prop"
             {| env_kind := "Property"; env_new_attribute_name := "new_prop";
                env_message := None; env_version := None; env_removal_version := None;
                env_stacklevel := 3; env_category := None;
                env_fully_qualified := false;
                env_old_attribute_name := "one" |}
             "one" VNone demo_world2).
  - vm_compute. reflexivity.
  - reflexivity.
  - vm_compute. reflexivity.
Defined.

(** X11 at the second program: [c.alias]. *)
Lemma X11_witness :
  @py_getattr demo_runtime 1 (VRef 6) "alias" demo_world2
  = (Ok (VBound demo_alias (VRef 6)), demo_world2).
Proof.
  apply (proj1 (@X11_moved_function_as_method demo_runtime)
           0 6 5 ∅ "alias" [] (VFunc "succ") "alias" "oldmod" None None None 3%Z None
           demo_world2).
  - reflexivity.
  - vm_compute. reflexivity.
  - vm_compute. reflexivity.
Defined.

(** X13 at the first program: three calls of the moved [one]. *)
Lemma X13_witness :
  length (warnings_of
            (w_trace (snd (@py_call_times demo_runtime 2 3
                             (@moved_function demo_runtime demo_heap (VFunc "one")
                                "uno" "oldmod" None None None 3 None)
                             [] [] demo_world)))) = 3.
Proof.
  destruct (@X13_every_call_warns_again demo_runtime demo_heap "one" "uno" "oldmod"
              None None None 3%Z None 0 3 [] [] demo_world) as (_ & Hw).
  - intros s0. exists (VInt 1). reflexivity.
  - rewrite Hw. reflexivity.
Defined.
